(** * Automated report generator: the analyze / visualize / compose pipeline

    A shallow embedding of [src/app.py]: the three pipeline functions
    [analyze_data], [create_visualizations] and [generate_pdf_report], the
    pandas frame operations they call, and the reportlab story they build.

    Conventions.
    - A Python exception is a value [Raise e] of the [result] monad; statement
      order is the order of the binds, so the first failing statement decides
      which exception comes out.
    - A Python [float] is read as an exact rational ([Q]) or as the marker
      [PNaN]; rounding is not modelled.  Equations between computed floats
      are therefore stated with [==] (Qeq).
    - A Python [str] is a [string] holding the bytes of its UTF-8 encoding;
      [len] and slices count characters (code points), not bytes.
    - pandas, plotly and reportlab are not part of the repository.  Their
      calls are modelled by what their documentation promises where the
      pipeline's control flow depends on it ([select_dtypes], [isnull],
      [head], [values], the argument check of plotly express, the
      empty-table check of reportlab's [Table]) and are left as operations
      of the class [Libs] otherwise ([describe], the construction and export
      of a figure, the rendering of floats, the markup parser of
      [Paragraph], the image reader of [Image], the PDF writer).  Every
      library call that can raise is a [result]. *)

From Stdlib Require Import QArith Ascii.
From stdpp Require Import gmap strings list pretty.

Local Open Scope string_scope.

(** ** Exceptions *)

Record exn := PyExn { exn_class : string }.

Definition ZeroDivisionError : exn := PyExn "ZeroDivisionError".
Definition IndexError : exn := PyExn "IndexError".
Definition ValueError : exn := PyExn "ValueError".
Definition NameError : exn := PyExn "NameError".

Inductive result (A : Type) : Type :=
| Ok (a : A)
| Raise (e : exn).
Arguments Ok {A} a.
Arguments Raise {A} e.

#[global] Instance result_ret : MRet result := fun A a => Ok a.
#[global] Instance result_bind : MBind result := fun A B f m =>
  match m with
  | Ok a => f a
  | Raise e => Raise e
  end.

Definition is_ok {A} (r : result A) : bool :=
  match r with Ok _ => true | Raise _ => false end.

(** [[f(x) for x in xs]]: the body is evaluated once per element, left to
    right; an exception in the body ends the comprehension. *)
Fixpoint comprehension {A B} (f : A -> result B) (xs : list A) : result (list B) :=
  match xs with
  | [] => Ok []
  | x :: xs' => y ← f x; ys ← comprehension f xs'; Ok (y :: ys)
  end.

(** [xs[i]] on a list. *)
Definition getitem {A} (xs : list A) (i : nat) : result A :=
  match xs !! i with
  | Some x => Ok x
  | None => Raise IndexError
  end.

(** [x / n] for a float [x] and an int [n]. *)
Definition truediv (x : Q) (n : nat) : result Q :=
  if Nat.eqb n 0 then Raise ZeroDivisionError
  else Ok (x / inject_Z (Z.of_nat n))%Q.

(** ** Strings

    A character of a UTF-8 string starts at every byte that is not a
    continuation byte (10xxxxxx). *)
Definition is_continuation (a : Ascii.ascii) : bool :=
  match a with
  | Ascii.Ascii _ _ _ _ _ _ b6 b7 => b7 && negb b6
  end.

(** [len(s)]: the number of characters. *)
Fixpoint len (s : string) : nat :=
  match s with
  | EmptyString => 0
  | String a s' => if is_continuation a then len s' else S (len s')
  end.

(** [s[:n]]: the first [n] characters, all of [s] when it has fewer. *)
Fixpoint slice_to (n : nat) (s : string) : string :=
  match s with
  | EmptyString => EmptyString
  | String a s' =>
      if is_continuation a then String a (slice_to n s')
      else match n with
           | 0 => EmptyString
           | S n' => String a (slice_to n' s')
           end
  end.

(** ** Tables (pandas frames) *)

(** The column types a frame read by [read_csv] or [read_excel] carries. *)
Inductive dtype := Int64 | Float64 | Bool | Object | Datetime64.

#[global] Instance dtype_eq_dec : EqDecision dtype.
Proof. solve_decision. Defined.

(** [np.number]: the integer and floating types. *)
Definition is_number (d : dtype) : bool :=
  match d with
  | Int64 | Float64 => true
  | _ => false
  end.

Definition is_object (d : dtype) : bool :=
  match d with
  | Object => true
  | _ => false
  end.

(** A cell, as the Python scalar it is. *)
Inductive pyobj :=
| PInt (z : Z)
| PFloat (q : Q)
| PNaN
| PBool (b : bool)
| PStr (s : string)
| PNone
| PTimestamp (ns : Z)
| PNaT.

Record Column := {
  col_name : string;
  col_dtype : dtype;
  col_cells : list pyobj
}.

(** [df_len] is [len(df.index)], the number of rows; a column holds that
    many cells.  Column names are strings, as the header of a CSV file gives
    them.  A frame read from a file has no column name twice (pandas renames
    repeated headers); the properties that need it assume
    [NoDup (columns df)]. *)
Record DataFrame := {
  df_len : nat;
  df_cols : list Column
}.

(** [df.columns.tolist()] *)
Definition columns (df : DataFrame) : list string := col_name <$> df_cols df.

(** [df.select_dtypes(include=...)]: the columns whose type is selected, in
    their order; the rows are kept. *)
Definition select_dtypes (include : dtype -> bool) (df : DataFrame) : DataFrame :=
  {| df_len := df_len df;
     df_cols := filter (fun c => include (col_dtype c) = true) (df_cols df) |}.

(** [pd.isnull] on a scalar. *)
Definition isnull (c : pyobj) : bool :=
  match c with
  | PNaN | PNone | PNaT => true
  | _ => false
  end.

(** [df.isnull().sum()]: per column, the number of null cells. *)
Definition count_null (c : Column) : nat :=
  length (filter (fun x => isnull x = true) (col_cells c)).

Definition isnull_sum (df : DataFrame) : list (string * nat) :=
  (fun c => (col_name c, count_null c)) <$> df_cols df.

(** [Series.to_dict()]: the entries are stored in order, a later entry under
    a key already present replaces the earlier one. *)
Definition to_dict (items : list (string * nat)) : gmap string nat :=
  foldl (fun m kv => <[kv.1 := kv.2]> m) ∅ items.

(** [df.head(n)] and [df[:n]]. *)
Definition head (n : nat) (df : DataFrame) : DataFrame :=
  {| df_len := Nat.min n (df_len df);
     df_cols := (fun c => {| col_name := col_name c;
                             col_dtype := col_dtype c;
                             col_cells := take n (col_cells c) |}) <$> df_cols df |}.

(** [df.index] of a frame as read from a file: 0, 1, ..., len-1. *)
Definition index (df : DataFrame) : list nat := seq 0 (df_len df).

(** [df.values]: one array for the whole frame, so the cells are brought to
    a common type: the columns' type when they all agree, float64 for a mix
    of integer and floating columns, object otherwise. *)
Definition interleaved_dtype (ds : list dtype) : dtype :=
  match ds with
  | [] => Float64
  | d :: ds' =>
      if forallb (fun d' => bool_decide (d' = d)) ds' then d
      else if forallb is_number (d :: ds') then Float64
      else Object
  end.

(** [.tolist()] of that array gives Python scalars: an integer in a float64
    array is a float, a datetime64[ns] array gives integers (nanoseconds) and
    None for NaT. *)
Definition as_scalar (common : dtype) (c : pyobj) : pyobj :=
  match common, c with
  | Float64, PInt z => PFloat (inject_Z z)
  | Datetime64, PTimestamp ns => PInt ns
  | Datetime64, PNaT => PNone
  | _, _ => c
  end.

Definition row_at (df : DataFrame) (i : nat) : list pyobj :=
  (fun c => default PNone (col_cells c !! i)) <$> df_cols df.

Definition values_tolist (df : DataFrame) : list (list pyobj) :=
  let common := interleaved_dtype (col_dtype <$> df_cols df) in
  (fun i => as_scalar common <$> row_at df i) <$> seq 0 (df_len df).

(** ** The report story (reportlab flowables) *)

Definition bytes := list Byte.byte.

Definition inch : Q := 72.

(** [reportlab.lib.pagesizes.letter], in points. *)
Definition letter : Q * Q := (612, 792)%Q.

Inductive ParagraphStyle :=
| SheetStyle (name : string)
| CustomStyle (name : string) (parent : ParagraphStyle)
    (overrides : list (string * string)).

Record StyleCmd := {
  cmd_name : string;
  cmd_from : Z * Z;
  cmd_to : Z * Z;
  cmd_args : list string
}.

(** The flowables the composer uses, each with the arguments it was made
    from.  A paragraph's text is reportlab markup, parsed when the paragraph
    is made, and the source of an image given as a file object is read when
    the image is made: [new_paragraph] and [new_image] below are the
    constructor calls, which can raise. *)
Inductive Flowable :=
| Paragraph (text : string) (style : ParagraphStyle)
| Spacer (width height : Q)
| Table (data : list (list string)) (colWidths : list Q) (style : list StyleCmd)
| PageBreak
| Image (src : bytes) (width height : Q).

Record SimpleDocTemplate := {
  pagesize : Q * Q;
  rightMargin : Q;
  leftMargin : Q;
  topMargin : Q;
  bottomMargin : Q
}.

(** The width of the frame the story is laid out in. *)
Definition printable_width (doc : SimpleDocTemplate) : Q :=
  (fst (pagesize doc) - leftMargin doc - rightMargin doc)%Q.

(** [Table(data, colWidths=...)] followed by [setStyle].  reportlab refuses
    a table without a row or without a column (its [emptyTableAction] is
    ['error'] unless configured otherwise); the column count is that of the
    longest row. *)
Definition new_table (data : list (list string)) (colWidths : list Q)
    (style : list StyleCmd) : result Flowable :=
  let nrows := length data in
  let ncols := max_list (length <$> data) in
  if Nat.eqb nrows 0 || Nat.eqb ncols 0 then Raise ValueError
  else Ok (Table data colWidths style).

(** ** What the libraries supply *)

Definition stats_dict := list (string * list (string * pyobj)).

Class Libs := {
  (** [str(x)] and [f"{x:.2f}"] for a float, [str] of a pandas Timestamp *)
  float_str : Q -> string;
  float_fixed2 : Q -> string;
  timestamp_str : Z -> string;
  (** [datetime.now().strftime('%B %d, %Y at %I:%M %p')] *)
  generated_on : string;
  (** [df.describe().to_dict()]: column name to statistic name to value *)
  describe : DataFrame -> result stats_dict;
  (** plotly express, once its arguments are accepted, and the image export;
      both can raise *)
  Figure : Type;
  bar_figure : DataFrame -> list nat -> string -> string -> list string -> result Figure;
  line_figure : DataFrame -> list nat -> string -> string -> list string -> result Figure;
  to_image : Figure -> string -> nat -> nat -> result bytes;
  (** reportlab's paragraph parser: whether it accepts a text as markup *)
  para_parses : string -> bool;
  (** the image reader behind [Image]: the pixel size of the image held in
      the bytes; it raises when they are not an image it can read *)
  read_image : bytes -> result (nat * nat);
  (** [doc.build(elements)]: the bytes written to the buffer; the layout can
      raise *)
  doc_build : SimpleDocTemplate -> list Flowable -> result bytes
}.

(** [Paragraph(text, style)]: the text is parsed at once, and reportlab
    raises ValueError for text that is not well-formed markup (an unclosed or
    unknown tag, as in a text holding "a<b"). *)
Definition new_paragraph `{Libs} (text : string) (style : ParagraphStyle)
    : result Flowable :=
  if para_parses text then Ok (Paragraph text style) else Raise ValueError.

(** [Image(BytesIO(src), width=..., height=...)]: the source is opened to
    find the size of the image, whatever the size asked for. *)
Definition new_image `{Libs} (src : bytes) (width height : Q) : result Flowable :=
  read_image src;;
  Ok (Image src width height).

(** [str(cell)] *)
Definition str `{Libs} (c : pyobj) : string :=
  match c with
  | PInt z => pretty z
  | PFloat q => float_str q
  | PNaN => "nan"
  | PBool true => "True"
  | PBool false => "False"
  | PStr s => s
  | PNone => "None"
  | PTimestamp ns => timestamp_str ns
  | PNaT => "NaT"
  end.

(** [sep.join(xs)] *)
Definition join (sep : string) (xs : list string) : string := String.concat sep xs.

(** ** plotly express

    [px.bar(data_frame, x=..., y=..., ...)], [px.line] and [px.histogram]
    first gather their arguments into one frame, x before y.
    - An argument given as a string must name a column of [data_frame];
      otherwise plotly raises ValueError ("Value of 'y' is not the name of a
      column in 'data_frame'").
    - An argument given as a sequence of values that has no name of its own
      (a slice of the index has none) is gathered under the name of the
      argument ("x"); plotly raises NameError ("A name conflict was
      encountered for argument 'x'") when another argument of the call names
      a column so.
    - An argument must be as long as the first one gathered, unless that one
      is empty; otherwise plotly raises ValueError ("All arguments should
      have the same length"). *)
Inductive px_arg :=
| ColumnName (name : string)
| IndexValues (values : list nat).

(** The column names a call uses as arguments. *)
Definition reserved_names (args : list (string * px_arg)) : list string :=
  omap (fun arg : string * px_arg =>
          match arg.2 with
          | ColumnName name => Some name
          | IndexValues _ => None
          end) args.

(** Gathering one argument; [first] is the length of the first column
    gathered so far, if any. *)
Definition px_gather (df : DataFrame) (reserved : list string)
    (first : option nat) (arg : string * px_arg) : result (option nat) :=
  let length_so_far := default 0%nat first in
  match arg.2 with
  | ColumnName name =>
      if negb (bool_decide (name ∈ columns df)) then Raise ValueError
      else if (0 <? length_so_far)%nat && negb (df_len df =? length_so_far)%nat
           then Raise ValueError
      else Ok (Some (default (df_len df) first))
  | IndexValues values =>
      if bool_decide (arg.1 ∈ reserved) then Raise NameError
      else if (0 <? length_so_far)%nat && negb (length values =? length_so_far)%nat
           then Raise ValueError
      else Ok (Some (default (length values) first))
  end.

Fixpoint px_gather_all (df : DataFrame) (reserved : list string)
    (first : option nat) (args : list (string * px_arg)) : result unit :=
  match args with
  | [] => Ok tt
  | arg :: args' =>
      first' ← px_gather df reserved first arg;
      px_gather_all df reserved first' args'
  end.

Definition px_process_args (df : DataFrame) (args : list (string * px_arg))
    : result unit :=
  px_gather_all df (reserved_names args) None args.

Definition px_bar `{Libs} (df : DataFrame) (x : list nat) (y title : string)
    (color_discrete_sequence : list string) : result Figure :=
  px_process_args df [("x", IndexValues x); ("y", ColumnName y)];;
  bar_figure df x y title color_discrete_sequence.

Definition px_line `{Libs} (df : DataFrame) (x : list nat) (y title : string)
    (color_discrete_sequence : list string) : result Figure :=
  px_process_args df [("x", IndexValues x); ("y", ColumnName y)];;
  line_figure df x y title color_discrete_sequence.

(** ** The Profiler *)

Record Analysis := {
  total_rows : nat;
  total_columns : nat;
  numeric_columns : list string;
  categorical_columns : list string;
  missing_values : gmap string nat;
  summary_stats : stats_dict
}.

Definition analyze_data `{Libs} (df : DataFrame) : result Analysis :=
  stats ← (if (0 <? length (columns (select_dtypes is_number df)))%nat
           then describe df else Ok []);
  Ok {| total_rows := df_len df;
        total_columns := length (columns df);
        numeric_columns := columns (select_dtypes is_number df);
        categorical_columns := columns (select_dtypes is_object df);
        missing_values := to_dict (isnull_sum df);
        summary_stats := stats |}.

(** ** The Chart Renderer *)

Definition create_visualizations `{Libs} (df : DataFrame)
    (numeric_cols : list string) : result (list bytes) :=
  let charts : list bytes := [] in
  if (0 <? length numeric_cols)%nat then
    y1 ← getitem numeric_cols 0;
    fig1 ← px_bar df (take 10 (index df)) y1 (y1 +:+ " - Top 10 Records") ["#667eea"];
    img_bytes1 ← to_image fig1 "png" 800 400;
    let charts := (charts ++ [img_bytes1])%list in
    if (2 <=? length numeric_cols)%nat then
      y2 ← getitem numeric_cols 1;
      fig2 ← px_line (head 20 df) (take 20 (index df)) y2
               (y2 +:+ " - Trend Analysis") ["#764ba2"];
      img_bytes2 ← to_image fig2 "png" 800 400;
      let charts := (charts ++ [img_bytes2])%list in
      Ok charts
    else Ok charts
  else Ok charts.

(** ** The Report Composer *)

(** Truth value of a list or a dict: non-empty. *)
Definition truthy {A} (xs : list A) : bool :=
  match xs with
  | [] => false
  | _ :: _ => true
  end.

Definition Normal : ParagraphStyle := SheetStyle "Normal".
Definition Heading3 : ParagraphStyle := SheetStyle "Heading3".

Definition title_style : ParagraphStyle :=
  CustomStyle "CustomTitle" (SheetStyle "Heading1")
    [("fontSize", "24"); ("textColor", "#667eea"); ("spaceAfter", "30");
     ("alignment", "TA_CENTER")].

Definition heading_style : ParagraphStyle :=
  CustomStyle "CustomHeading" (SheetStyle "Heading2")
    [("fontSize", "16"); ("textColor", "#764ba2"); ("spaceAfter", "12");
     ("spaceBefore", "12")].

Definition style_cmd (name : string) (c0 r0 c1 r1 : Z) (args : list string) : StyleCmd :=
  {| cmd_name := name; cmd_from := (c0, r0); cmd_to := (c1, r1); cmd_args := args |}.

Definition summary_table_style : list StyleCmd :=
  [ style_cmd "BACKGROUND" 0 0 (-1) (-1) ["#f5f7fa"];
    style_cmd "TEXTCOLOR" 0 0 (-1) (-1) ["black"];
    style_cmd "ALIGN" 0 0 (-1) (-1) ["LEFT"];
    style_cmd "FONTNAME" 0 0 0 (-1) ["Helvetica-Bold"];
    style_cmd "FONTSIZE" 0 0 (-1) (-1) ["11"];
    style_cmd "BOTTOMPADDING" 0 0 (-1) (-1) ["12"];
    style_cmd "TOPPADDING" 0 0 (-1) (-1) ["12"];
    style_cmd "GRID" 0 0 (-1) (-1) ["1"; "grey"] ].

Definition stats_table_style : list StyleCmd :=
  [ style_cmd "BACKGROUND" 0 0 (-1) (-1) ["#f5f7fa"];
    style_cmd "TEXTCOLOR" 0 0 (-1) (-1) ["black"];
    style_cmd "ALIGN" 0 0 (-1) (-1) ["LEFT"];
    style_cmd "FONTNAME" 0 0 0 (-1) ["Helvetica-Bold"];
    style_cmd "FONTSIZE" 0 0 (-1) (-1) ["10"];
    style_cmd "GRID" 0 0 (-1) (-1) ["1"; "grey"];
    style_cmd "BOTTOMPADDING" 0 0 (-1) (-1) ["8"];
    style_cmd "TOPPADDING" 0 0 (-1) (-1) ["8"] ].

Definition preview_table_style : list StyleCmd :=
  [ style_cmd "BACKGROUND" 0 0 (-1) 0 ["#667eea"];
    style_cmd "TEXTCOLOR" 0 0 (-1) 0 ["whitesmoke"];
    style_cmd "ALIGN" 0 0 (-1) (-1) ["CENTER"];
    style_cmd "FONTNAME" 0 0 (-1) 0 ["Helvetica-Bold"];
    style_cmd "FONTSIZE" 0 0 (-1) 0 ["10"];
    style_cmd "BOTTOMPADDING" 0 0 (-1) 0 ["12"];
    style_cmd "BACKGROUND" 0 1 (-1) (-1) ["white"];
    style_cmd "TEXTCOLOR" 0 1 (-1) (-1) ["black"];
    style_cmd "FONTSIZE" 0 1 (-1) (-1) ["8"];
    style_cmd "GRID" 0 0 (-1) (-1) ["1"; "grey"];
    style_cmd "ROWBACKGROUNDS" 0 1 (-1) (-1) ["white"; "#f5f7fa"] ].

(** The document the story is built into (lines 96-98). *)
Definition report_doc : SimpleDocTemplate :=
  {| pagesize := letter; rightMargin := 72; leftMargin := 72;
     topMargin := 72; bottomMargin := 18 |}.

(** Title (lines 122-126). *)
Definition title_block `{Libs} : result (list Flowable) :=
  title ← new_paragraph "Automated Data Analysis Report" title_style;
  generated ← new_paragraph ("Generated on: " +:+ generated_on) Normal;
  Ok [ title; generated; Spacer 1 20 ].

(** Executive summary (lines 128-148). *)
Definition summary_data (analysis : Analysis) : list (list string) :=
  [ ["Total Records"; pretty (total_rows analysis)];
    ["Total Columns"; pretty (total_columns analysis)];
    ["Numeric Columns"; pretty (length (numeric_columns analysis))];
    ["Categorical Columns"; pretty (length (categorical_columns analysis))] ].

Definition summary_block `{Libs} (analysis : Analysis) : result (list Flowable) :=
  heading ← new_paragraph "Executive Summary" heading_style;
  summary_table ← new_table (summary_data analysis) [3 * inch; 3 * inch]%Q
                     summary_table_style;
  Ok [ heading; summary_table; Spacer 1 20 ].

(** Column information (lines 150-157): the names go into the markup as
    they are. *)
Definition names_or_None (names : list string) : string :=
  if truthy names then join ", " names else "None".

Definition numeric_info_text (analysis : Analysis) : string :=
  "<b>Numeric Columns:</b> " +:+ names_or_None (numeric_columns analysis).

Definition categorical_info_text (analysis : Analysis) : string :=
  "<b>Categorical Columns:</b> " +:+ names_or_None (categorical_columns analysis).

Definition column_info_block `{Libs} (analysis : Analysis)
    : result (list Flowable) :=
  heading ← new_paragraph "Column Information" heading_style;
  numeric ← new_paragraph (numeric_info_text analysis) Normal;
  categorical ← new_paragraph (categorical_info_text analysis) Normal;
  Ok [ heading; numeric; Spacer 1 10; categorical; Spacer 1 20 ].

(** Statistical summary (lines 159-178): present when the statistics dict is
    not empty, one labelled table for each of its first three entries. *)
Definition stat_text `{Libs} (v : pyobj) : string :=
  match v with
  | PFloat q => float_fixed2 q
  | PNaN => "nan"
  | _ => str v
  end.

Definition stats_data `{Libs} (stats : list (string * pyobj)) : list (list string) :=
  (fun kv => [kv.1; stat_text kv.2]) <$> stats.

Definition stats_entry_text (entry : string * list (string * pyobj)) : string :=
  "<b>" +:+ entry.1 +:+ "</b>".

Definition stats_entry `{Libs} (entry : string * list (string * pyobj))
    : result (list Flowable) :=
  heading ← new_paragraph (stats_entry_text entry) Heading3;
  stats_table ← new_table (stats_data entry.2) [2 * inch; 2 * inch]%Q
                   stats_table_style;
  Ok [ heading; stats_table; Spacer 1 12 ].

Definition stats_block `{Libs} (analysis : Analysis) : result (list Flowable) :=
  if truthy (summary_stats analysis) then
    heading ← new_paragraph "Statistical Summary" heading_style;
    entries ← comprehension stats_entry (take 3 (summary_stats analysis));
    Ok (heading :: concat entries)
  else Ok [].

(** Data preview (lines 180-204). *)
Definition truncate_cell `{Libs} (cell : pyobj) : string :=
  if (20 <? len (str cell))%nat
  then slice_to 20 (str cell) +:+ "..."
  else str cell.

Definition preview_data `{Libs} (df : DataFrame) : list (list string) :=
  let preview_data : list (list pyobj) :=
    (PStr <$> columns df) :: values_tolist (head 10 df) in
  (fun row : list pyobj => truncate_cell <$> row) <$> preview_data.

Definition col_widths (df : DataFrame) : result (list Q) :=
  comprehension
    (fun _ => w ← truediv (fst letter) (length (columns df)); Ok (w - 20)%Q)
    (columns df).

Definition preview_block `{Libs} (df : DataFrame) : result (list Flowable) :=
  heading ← new_paragraph "Data Preview (First 10 Rows)" heading_style;
  let data := preview_data df in
  widths ← col_widths df;
  preview_table ← new_table data widths preview_table_style;
  Ok [ PageBreak; heading; preview_table ].

(** Visualizations (lines 206-214). *)
Definition chart_entry `{Libs} (chart_bytes : bytes) : result (list Flowable) :=
  img ← new_image chart_bytes (6 * inch) (3 * inch);
  Ok [ img; Spacer 1 20 ].

Definition charts_block `{Libs} (charts : list bytes) : result (list Flowable) :=
  if truthy charts then
    heading ← new_paragraph "Data Visualizations" heading_style;
    entries ← comprehension chart_entry charts;
    Ok (PageBreak :: heading :: concat entries)
  else Ok [].

(** The list [elements] as it stands when [doc.build] is called; the blocks
    are made in the order of the statements. *)
Definition report_elements `{Libs} (df : DataFrame) (analysis : Analysis)
    (charts : list bytes) : result (list Flowable) :=
  title ← title_block;
  summary ← summary_block analysis;
  info ← column_info_block analysis;
  stats ← stats_block analysis;
  preview ← preview_block df;
  images ← charts_block charts;
  Ok (title ++ summary ++ info ++ stats ++ preview ++ images)%list.

Definition generate_pdf_report `{Libs} (df : DataFrame) (analysis : Analysis)
    (charts : list bytes) : result bytes :=
  elements ← report_elements df analysis charts;
  doc_build report_doc elements.

(** ** The pipeline run by the upload handler (lines 255-301), from the
    parsed table on *)
Definition pipeline `{Libs} (df : DataFrame) : result bytes :=
  analysis ← analyze_data df;
  charts ← create_visualizations df (numeric_columns analysis);
  generate_pdf_report df analysis charts.

(** ** The stages on a store of objects

    The functions above compute with values.  The Python functions receive
    references: the frame, the analysis dict and the lists in it, and the
    chart list are objects that a callee could change under its caller.  The
    store model below runs each stage on a heap of objects, with the
    statements that write ([charts = []], [charts.append], [elements = []],
    [elements.append], the buffer) as heap operations.  The pandas calls on
    the frame return new objects and are heap reads. *)

Abbreviation loc := positive.

Inductive object :=
| OFrame (df : DataFrame)
| ONames (xs : list string)
| OCounts (m : gmap string nat)
| OStats (s : stats_dict)
| ODict (rows cols : nat) (numeric categorical missing stats : loc)
| OImages (xs : list bytes)
| OStory (xs : list Flowable)
| OBuffer (content : bytes).

Abbreviation heap := (gmap loc object).

(** A statement: from a heap to an outcome and the heap it leaves. *)
Record St (A : Type) := MkSt { run : heap -> result A * heap }.
Arguments MkSt {A} run.
Arguments run {A} s h.

#[global] Instance St_ret : MRet St := fun A a => MkSt (fun h => (Ok a, h)).
#[global] Instance St_bind : MBind St := fun A B f m =>
  MkSt (fun h =>
    match run m h with
    | (Ok a, h') => run (f a) h'
    | (Raise e, h') => (Raise e, h')
    end).

(** An expression that touches no object. *)
Definition pure {A} (r : result A) : St A := MkSt (fun h => (r, h)).

(** A new object, at an address not in use. *)
Definition new (o : object) : St loc :=
  MkSt (fun h => let l := fresh (dom h) in (Ok l, <[l := o]> h)).

Definition TypeError : exn := PyExn "TypeError".

Definition load (l : loc) : St object :=
  MkSt (fun h =>
    match h !! l with
    | Some o => (Ok o, h)
    | None => (Raise TypeError, h)
    end).

Definition frame_at (l : loc) : St DataFrame :=
  o ← load l; match o with OFrame df => mret df | _ => pure (Raise TypeError) end.

Definition names_at (l : loc) : St (list string) :=
  o ← load l; match o with ONames xs => mret xs | _ => pure (Raise TypeError) end.

Definition counts_at (l : loc) : St (gmap string nat) :=
  o ← load l; match o with OCounts m => mret m | _ => pure (Raise TypeError) end.

Definition stats_at (l : loc) : St stats_dict :=
  o ← load l; match o with OStats s => mret s | _ => pure (Raise TypeError) end.

Definition images_at (l : loc) : St (list bytes) :=
  o ← load l; match o with OImages xs => mret xs | _ => pure (Raise TypeError) end.

Definition story_at (l : loc) : St (list Flowable) :=
  o ← load l; match o with OStory xs => mret xs | _ => pure (Raise TypeError) end.

(** The analysis dict, read through its references. *)
Definition analysis_at (l : loc) : St Analysis :=
  o ← load l;
  match o with
  | ODict rows cols numeric categorical missing stats =>
      n ← names_at numeric;
      c ← names_at categorical;
      m ← counts_at missing;
      s ← stats_at stats;
      mret {| total_rows := rows; total_columns := cols;
              numeric_columns := n; categorical_columns := c;
              missing_values := m; summary_stats := s |}
  | _ => pure (Raise TypeError)
  end.

(** [charts.append(x)] *)
Definition append_image (l : loc) (x : bytes) : St unit :=
  MkSt (fun h =>
    match h !! l with
    | Some (OImages xs) => (Ok tt, <[l := OImages (xs ++ [x])]> h)
    | _ => (Raise TypeError, h)
    end).

(** [elements.append(x)] *)
Definition append_flowable (l : loc) (x : Flowable) : St unit :=
  MkSt (fun h =>
    match h !! l with
    | Some (OStory xs) => (Ok tt, <[l := OStory (xs ++ [x])]> h)
    | _ => (Raise TypeError, h)
    end).

Fixpoint append_flowables (l : loc) (xs : list Flowable) : St unit :=
  match xs with
  | [] => mret tt
  | x :: xs' => append_flowable l x;; append_flowables l xs'
  end.

(** What [doc.build] leaves in the buffer. *)
Definition write_buffer (l : loc) (content : bytes) : St unit :=
  MkSt (fun h =>
    match h !! l with
    | Some (OBuffer _) => (Ok tt, <[l := OBuffer content]> h)
    | _ => (Raise TypeError, h)
    end).

Definition analyze_data_st `{Libs} (df : loc) : St loc :=
  d ← frame_at df;
  numeric ← new (ONames (columns (select_dtypes is_number d)));
  categorical ← new (ONames (columns (select_dtypes is_object d)));
  missing ← new (OCounts (to_dict (isnull_sum d)));
  s ← pure (if (0 <? length (columns (select_dtypes is_number d)))%nat
            then describe d else Ok []);
  stats ← new (OStats s);
  new (ODict (df_len d) (length (columns d)) numeric categorical missing stats).

Definition create_visualizations_st `{Libs} (df numeric_cols : loc) : St loc :=
  charts ← new (OImages []);
  d ← frame_at df;
  cols ← names_at numeric_cols;
  (if (0 <? length cols)%nat then
     y1 ← pure (getitem cols 0);
     fig1 ← pure (px_bar d (take 10 (index d)) y1 (y1 +:+ " - Top 10 Records")
                    ["#667eea"]);
     img_bytes1 ← pure (to_image fig1 "png" 800 400);
     append_image charts img_bytes1;;
     if (2 <=? length cols)%nat then
       y2 ← pure (getitem cols 1);
       fig2 ← pure (px_line (head 20 d) (take 20 (index d)) y2
                      (y2 +:+ " - Trend Analysis") ["#764ba2"]);
       img_bytes2 ← pure (to_image fig2 "png" 800 400);
       append_image charts img_bytes2
     else mret tt
   else mret tt);;
  mret charts.

Definition generate_pdf_report_st `{Libs} (df analysis charts : loc) : St loc :=
  buffer ← new (OBuffer []);
  elements ← new (OStory []);
  a ← analysis_at analysis;
  title ← pure title_block;
  append_flowables elements title;;
  summary ← pure (summary_block a);
  append_flowables elements summary;;
  info ← pure (column_info_block a);
  append_flowables elements info;;
  stats ← pure (stats_block a);
  append_flowables elements stats;;
  d ← frame_at df;
  preview ← pure (preview_block d);
  append_flowables elements preview;;
  cs ← images_at charts;
  images ← pure (charts_block cs);
  append_flowables elements images;;
  story ← story_at elements;
  content ← pure (doc_build report_doc story);
  write_buffer buffer content;;
  mret buffer.

(** [analysis['numeric_columns']]: the list object held by the dict. *)
Definition numeric_columns_ref (analysis : loc) : St loc :=
  o ← load analysis;
  match o with
  | ODict _ _ numeric _ _ _ => mret numeric
  | _ => pure (Raise TypeError)
  end.

Definition pipeline_st `{Libs} (df : loc) : St loc :=
  analysis ← analyze_data_st df;
  numeric ← numeric_columns_ref analysis;
  charts ← create_visualizations_st df numeric;
  generate_pdf_report_st df analysis charts.

(** A stage keeps the objects of [h0]: started on a heap that holds them, it
    ends, normally or with an exception, on a heap that still holds them
    unchanged; [post] is what is known of a normal outcome. *)
Definition keeps {A} (h0 : heap) (s : St A) (post : A -> Prop) : Prop :=
  forall h, h0 ⊆ h ->
    h0 ⊆ (run s h).2 ∧
    match (run s h).1 with
    | Ok a => post a
    | Raise _ => True
    end.

(** The profile dict at [l] holds the analysis [a]. *)
Definition holds_analysis (h : heap) (l : loc) (a : Analysis) : Prop :=
  exists numeric categorical missing stats,
    h !! l = Some (ODict (total_rows a) (total_columns a)
                     numeric categorical missing stats) ∧
    h !! numeric = Some (ONames (numeric_columns a)) ∧
    h !! categorical = Some (ONames (categorical_columns a)) ∧
    h !! missing = Some (OCounts (missing_values a)) ∧
    h !! stats = Some (OStats (summary_stats a)).

(** ** A stand-in for the libraries, to run the model on concrete tables *)

(** A markup check that knows the bold tag only: every "<" of the text
    opens "<b>" or "</b>", and the two alternate.  [opened] tells whether a
    "<b>" is waiting for its "</b>". *)
Fixpoint bold_markup (opened : bool) (s : string) : bool :=
  match s with
  | EmptyString => negb opened
  | String a s1 =>
      if Ascii.eqb a "<"%char then
        match s1 with
        | String b (String c s3) =>
            if Ascii.eqb b "b"%char && Ascii.eqb c ">"%char
            then negb opened && bold_markup true s3
            else match s3 with
                 | String d s4 =>
                     Ascii.eqb b "/"%char && Ascii.eqb c "b"%char
                     && Ascii.eqb d ">"%char && opened && bold_markup false s4
                 | EmptyString => false
                 end
        | _ => false
        end
      else bold_markup opened s1
  end.

Definition UnidentifiedImageError : exn := PyExn "UnidentifiedImageError".

(** A PNG file of one pixel. *)
Definition one_pixel_png : bytes :=
  [ Byte.x89; Byte.x50; Byte.x4e; Byte.x47; Byte.x0d; Byte.x0a;
    Byte.x1a; Byte.x0a; Byte.x00; Byte.x00; Byte.x00; Byte.x0d;
    Byte.x49; Byte.x48; Byte.x44; Byte.x52; Byte.x00; Byte.x00;
    Byte.x00; Byte.x01; Byte.x00; Byte.x00; Byte.x00; Byte.x01;
    Byte.x08; Byte.x02; Byte.x00; Byte.x00; Byte.x00; Byte.x90;
    Byte.x77; Byte.x53; Byte.xde; Byte.x00; Byte.x00; Byte.x00;
    Byte.x0c; Byte.x49; Byte.x44; Byte.x41; Byte.x54; Byte.x78;
    Byte.x9c; Byte.x63; Byte.x48; Byte.xab; Byte.x7b; Byte.x05;
    Byte.x00; Byte.x03; Byte.x1c; Byte.x01; Byte.xcf; Byte.xb8;
    Byte.xa1; Byte.x99; Byte.xd8; Byte.x00; Byte.x00; Byte.x00;
    Byte.x00; Byte.x49; Byte.x45; Byte.x4e; Byte.x44; Byte.xae;
    Byte.x42; Byte.x60; Byte.x82 ].

Definition png_signature : bytes :=
  [ Byte.x89; Byte.x50; Byte.x4e; Byte.x47; Byte.x0d; Byte.x0a; Byte.x1a; Byte.x0a ].

Definition big_endian (bs : bytes) : N :=
  foldl (fun n b => (256 * n + Byte.to_N b)%N) 0%N bs.

(** An image reader that knows PNG files only: the signature, then the
    header chunk with the width and the height. *)
Definition png_size (src : bytes) : result (nat * nat) :=
  if bool_decide (Byte.to_N <$> take 8 src = Byte.to_N <$> png_signature)
     && (24 <=? length src)%nat
  then Ok (N.to_nat (big_endian (take 4 (drop 16 src))),
           N.to_nat (big_endian (take 4 (drop 20 src))))
  else Raise UnidentifiedImageError.

Definition sample_libs : Libs :=
  {| float_str := fun _ => "0.0";
     float_fixed2 := fun _ => "0.00";
     timestamp_str := fun _ => "1970-01-01 00:00:00";
     generated_on := "January 01, 2024 at 12:00 PM";
     describe := fun df =>
       Ok ((fun name => (name, [("count", PFloat (inject_Z (Z.of_nat (df_len df))))]))
             <$> columns (select_dtypes is_number df));
     Figure := string;
     bar_figure := fun _ _ _ title _ => Ok title;
     line_figure := fun _ _ _ title _ => Ok title;
     to_image := fun _ _ _ _ => Ok one_pixel_png;
     para_parses := bold_markup false;
     read_image := png_size;
     doc_build := fun _ _ => Ok [Byte.x25; Byte.x50; Byte.x44; Byte.x46] |}.

(** ** Vocabulary of the claims *)

(** The two charts, as [create_visualizations] asks the libraries for them. *)
Definition bar_chart `{Libs} (df : DataFrame) (y : string) : result bytes :=
  fig ← px_bar df (take 10 (index df)) y (y +:+ " - Top 10 Records") ["#667eea"];
  to_image fig "png" 800 400.

Definition line_chart `{Libs} (df : DataFrame) (y : string) : result bytes :=
  fig ← px_line (head 20 df) (take 20 (index df)) y (y +:+ " - Trend Analysis")
          ["#764ba2"];
  to_image fig "png" 800 400.

(** The plotting and export calls made for these columns all return. *)
Definition renders `{Libs} (df : DataFrame) (numeric_cols : list string) : Prop :=
  match numeric_cols with
  | [] => True
  | y1 :: rest =>
      is_ok (bar_chart df y1) = true ∧
      match rest with
      | [] => True
      | y2 :: _ => is_ok (line_chart df y2) = true
      end
  end.

(** The paragraphs the composer makes, once made. *)
Definition numeric_info (analysis : Analysis) : Flowable :=
  Paragraph (numeric_info_text analysis) Normal.

Definition stats_heading : Flowable := Paragraph "Statistical Summary" heading_style.

Definition charts_heading : Flowable := Paragraph "Data Visualizations" heading_style.


(** The width line 189 gives each of [n] preview columns. *)
Definition column_width (n : nat) : Q :=
  (fst letter / inject_Z (Z.of_nat n) - 20)%Q.

(** The flowables made for one statistics entry and for one chart. *)
Definition stats_entry_flowables `{Libs} (entry : string * list (string * pyobj))
    : list Flowable :=
  [ Paragraph (stats_entry_text entry) Heading3;
    Table (stats_data entry.2) [2 * inch; 2 * inch]%Q stats_table_style;
    Spacer 1 12 ].

Definition chart_flowables (chart_bytes : bytes) : list Flowable :=
  [ Image chart_bytes (6 * inch) (3 * inch); Spacer 1 20 ].





(** A text that does not begin in the middle of a character. *)
Definition starts_character (s : string) : Prop :=
  match s with
  | EmptyString => True
  | String a _ => is_continuation a = false
  end.

(** Sum of a list of widths. *)
Definition total_width (ws : list Q) : Q := foldr Qplus 0%Q ws.


(** ** Sample tables *)

Definition column (name : string) (d : dtype) (cells : list pyobj) : Column :=
  {| col_name := name; col_dtype := d; col_cells := cells |}.

(** Three products with their sales; one revenue is missing. *)
Definition sales_table : DataFrame :=
  {| df_len := 3;
     df_cols :=
       [ column "Product" Object [PStr "Laptop"; PStr "Phone"; PStr "Tablet"];
         column "Sales" Int64 [PInt 10; PInt 20; PInt 30];
         column "Revenue" Float64 [PFloat 1000.5; PNaN; PFloat 250] ] |}.

(** Text columns only. *)
Definition text_table : DataFrame :=
  {| df_len := 2;
     df_cols :=
       [ column "Product" Object [PStr "Laptop"; PStr "Phone"];
         column "Region" Object [PStr "North"; PNone] ] |}.

(** A CSV whose only column holds True / False is read with the bool type. *)
Definition flags_table : DataFrame :=
  {| df_len := 2;
     df_cols := [ column "flag" Bool [PBool true; PBool false] ] |}.




(** Eleven rows, one numeric column. *)
Definition eleven_rows_table : DataFrame :=
  {| df_len := 11;
     df_cols := [ column "a" Int64 (PInt <$> [1; 2; 3; 4; 5; 6; 7; 8; 9; 10; 11]%Z) ] |}.

(** Eleven rows, one numeric column named as the first argument of a plot. *)
Definition eleven_rows_x_table : DataFrame :=
  {| df_len := 11;
     df_cols := [ column "x" Int64 (PInt <$> [1; 2; 3; 4; 5; 6; 7; 8; 9; 10; 11]%Z) ] |}.

(** An empty sheet. *)
Definition no_columns_table : DataFrame :=
  {| df_len := 0; df_cols := [] |}.

(** ** Reading a story *)

(** The styles of the tables of a story, the sources of its images and the
    number of its page breaks, in the order of the story. *)
Definition table_styles (els : list Flowable) : list (list StyleCmd) :=
  omap (fun e => match e with Table _ _ style => Some style | _ => None end) els.

Definition image_sources (els : list Flowable) : list bytes :=
  omap (fun e => match e with Image src _ _ => Some src | _ => None end) els.

Definition page_breaks (els : list Flowable) : nat :=
  length (omap (fun e => match e with PageBreak => Some tt | _ => None end) els).

(** A column whose type the profile counts as numeric or as categorical. *)
Definition profiled (c : Column) : bool :=
  is_number (col_dtype c) || is_object (col_dtype c).

(** Two columns under one name, as a frame built in memory can have. *)
Definition repeated_name_table : DataFrame :=
  {| df_len := 1;
     df_cols := [column "x" Float64 [PNaN]; column "x" Float64 [PFloat 1]] |}.


(** The profile of [sales_table] under [sample_libs], and two charts. *)
Definition sales_profile : Analysis :=
  {| total_rows := 3;
     total_columns := 3;
     numeric_columns := ["Sales"; "Revenue"];
     categorical_columns := ["Product"];
     missing_values := to_dict [("Product", 0); ("Sales", 0); ("Revenue", 1)]%nat;
     summary_stats := [("Sales", [("count", PFloat 3)]);
                       ("Revenue", [("count", PFloat 3)])] |}.

Definition two_charts : list bytes := [ one_pixel_png; one_pixel_png ].

(** ** The upload handler (lines 232-342)

    streamlit runs the script once per user action.  The handler is modelled
    by what one run puts on the page: the list of widgets in the order of the
    [st.*] calls.  A layout call ([st.columns], [st.tabs]) and a spinner are
    listed where they are made; the widgets made inside them follow.  An
    exception leaves the widgets made before it on the page. *)

Definition KeyError : exn := PyExn "KeyError".

Record UploadedFile := {
  file_name : string;
  file_bytes : bytes
}.

(** What [st.dataframe] is given: the first rows of the table, a table of
    statistics, or the table of missing counts (its rows not ordered here). *)
Inductive frame_view :=
| Rows (df : DataFrame)
| Statistics (stats : stats_dict)
| MissingCounts (counts : gmap string nat).

Inductive widget (F : Type) :=
| StSuccess (text : string)
| StError (text : string)
| StInfo (text : string)
| StSubheader (text : string)
| StWrite (text : string)
| StMarkdown (text : string)
| StMetric (label : string) (value : nat)
| StDataframe (data : frame_view)
| StPlotlyChart (fig : F)
| StColumns (spec : list nat)
| StTabs (labels : list string)
| StSpinner (text : string)
| StButton (label : string)
| StDownloadButton (label : string) (data : bytes) (name mime : string)
| StExpander (label body : string).
Arguments StSuccess {F} text.
Arguments StError {F} text.
Arguments StInfo {F} text.
Arguments StSubheader {F} text.
Arguments StWrite {F} text.
Arguments StMarkdown {F} text.
Arguments StMetric {F} label value.
Arguments StDataframe {F} data.
Arguments StPlotlyChart {F} fig.
Arguments StColumns {F} spec.
Arguments StTabs {F} labels.
Arguments StSpinner {F} text.
Arguments StButton {F} label.
Arguments StDownloadButton {F} label data name mime.
Arguments StExpander {F} label body.

(** A piece of the script: the widgets it makes and how it ends. *)
Record Ui (F A : Type) := MkUi { shown : list (widget F); outcome : result A }.
Arguments MkUi {F A} shown outcome.
Arguments shown {F A} u.
Arguments outcome {F A} u.

#[global] Instance Ui_ret {F} : MRet (Ui F) := fun A a => MkUi [] (Ok a).
#[global] Instance Ui_bind {F} : MBind (Ui F) := fun A B f m =>
  match outcome m with
  | Ok a => MkUi (shown m ++ shown (f a)) (outcome (f a))
  | Raise e => MkUi (shown m) (Raise e)
  end.

Definition show {F} (w : widget F) : Ui F unit := MkUi [w] (Ok tt).

Definition eval {F A} (r : result A) : Ui F A := MkUi [] r.

(** [for x in xs: body(x)] *)
Fixpoint for_each {F A} (body : A -> Ui F unit) (xs : list A) : Ui F unit :=
  match xs with
  | [] => mret tt
  | x :: xs' => body x;; for_each body xs'
  end.

(** [s.endswith(suffix)]; the end of a text in characters is its end in
    bytes. *)
Definition endswith (s suffix : string) : bool :=
  (String.length suffix <=? String.length s)%nat
  && String.eqb
       (String.substring (String.length s - String.length suffix)
          (String.length suffix) s)
       suffix.

(** [df[names]]: the columns under each of the names, in the order of the
    names; KeyError for a name no column has. *)
Definition getitem_columns (names : list string) (df : DataFrame)
    : result DataFrame :=
  cols ← comprehension
           (fun name =>
              match filter (fun c => col_name c = name) (df_cols df) with
              | [] => Raise KeyError
              | c :: cs => Ok (c :: cs)
              end)
           names;
  Ok {| df_len := df_len df; df_cols := concat cols |}.

(** [df.isnull().sum().sum()] *)
Definition isnull_total (df : DataFrame) : nat :=
  sum_list (count_null <$> df_cols df).

(** What the handler needs from the libraries besides [Libs]: the two file
    readers, the histogram once plotly has accepted its arguments, the text
    of an exception, and [datetime.now().strftime('%Y%m%d_%H%M%S')]. *)
Class PageLibs `{Libs} := {
  read_csv : bytes -> result DataFrame;
  read_excel : bytes -> result DataFrame;
  histogram_figure : DataFrame -> string -> string -> list string -> result Figure;
  exn_str : exn -> string;
  file_stamp : string
}.

Section Handler.
Context `{PageLibs}.

(** [px.histogram(df, x=col, ...)]: one argument, which must name a column. *)
Definition px_histogram (df : DataFrame) (x title : string)
    (color_discrete_sequence : list string) : result Figure :=
  px_process_args df [("x", ColumnName x)];;
  histogram_figure df x title color_discrete_sequence.

(** Lines 235-238. *)
Definition read_upload (uploaded_file : UploadedFile) : result DataFrame :=
  if endswith (file_name uploaded_file) ".csv"
  then read_csv (file_bytes uploaded_file)
  else read_excel (file_bytes uploaded_file).

(** Lines 240-253. *)
Definition overview (df : DataFrame) : Ui Figure unit :=
  show (StSuccess ("✅ File uploaded successfully! Found " +:+ pretty (df_len df)
                   +:+ " rows and " +:+ pretty (length (columns df))
                   +:+ " columns."));;
  show (StColumns [2; 1]%nat);;
  show (StSubheader "📋 Data Preview");;
  show (StDataframe (Rows (head 10 df)));;
  show (StSubheader "📈 Quick Stats");;
  show (StMetric "Total Rows" (df_len df));;
  show (StMetric "Total Columns" (length (columns df)));;
  show (StMetric "Missing Values" (isnull_total df)).

(** Lines 264-269.  The statistics shown are those of [describe] on the
    selected columns ([Libs] gives them in the form [to_dict] returns). *)
Definition statistics_tab (df : DataFrame) (analysis : Analysis) : Ui Figure unit :=
  if truthy (numeric_columns analysis) then
    show (StWrite "**Numeric Columns Summary:**");;
    numeric ← eval (getitem_columns (numeric_columns analysis) df);
    stats ← eval (describe numeric);
    show (StDataframe (Statistics stats))
  else show (StInfo "No numeric columns found in the dataset.").

(** Lines 271-278. *)
Definition histogram (df : DataFrame) (col : string) : Ui Figure unit :=
  fig ← eval (px_histogram df col ("Distribution of " +:+ col) ["#667eea"]);
  show (StPlotlyChart fig).

Definition visualizations_tab (df : DataFrame) (analysis : Analysis)
    : Ui Figure unit :=
  if truthy (numeric_columns analysis)
  then for_each (histogram df) (take 2 (numeric_columns analysis))
  else show (StInfo "No numeric columns available for visualization.").

(** Lines 280-289. *)
Definition missing_tab (analysis : Analysis) : Ui Figure unit :=
  let missing_df :=
    filter (fun kv : string * nat => 0 < kv.2) (missing_values analysis) in
  if (0 <? size missing_df)%nat
  then show (StDataframe (MissingCounts missing_df))
  else show (StSuccess "✨ No missing values found!").

(** Lines 291-312; [clicked] is what [st.button] returns in this run. *)
Definition report_section (df : DataFrame) (analysis : Analysis) (clicked : bool)
    : Ui Figure unit :=
  show (StMarkdown "---");;
  show (StColumns [1; 2; 1]%nat);;
  show (StButton "🎯 Generate PDF Report");;
  if clicked then
    show (StSpinner "🎨 Creating your professional report...");;
    charts ← eval (create_visualizations df (numeric_columns analysis));
    pdf_buffer ← eval (generate_pdf_report df analysis charts);
    show (StSuccess "✅ Report generated successfully!");;
    show (StDownloadButton "📥 Download PDF Report" pdf_buffer
            ("report_" +:+ file_stamp +:+ ".pdf") "application/pdf")
  else mret tt.

(** The body of the [try] (lines 234-312). *)
Definition try_block (uploaded_file : UploadedFile) (clicked : bool)
    : Ui Figure unit :=
  df ← eval (read_upload uploaded_file);
  overview df;;
  show (StSpinner "🔍 Analyzing data...");;
  analysis ← eval (analyze_data df);
  show (StSubheader "🔬 Data Analysis");;
  show (StTabs ["📊 Statistics"; "📉 Visualizations"; "🔍 Missing Values"]);;
  statistics_tab df analysis;;
  visualizations_tab df analysis;;
  missing_tab analysis;;
  report_section df analysis clicked.

(** Lines 314-316. *)
Definition except_block (e : exn) : list (widget Figure) :=
  [ StError ("❌ Error processing file: " +:+ exn_str e);
    StInfo "Please make sure your file is properly formatted." ].

(** Lines 318-342. *)
Definition no_upload : list (widget Figure) :=
  [ StInfo "👆 Upload a file to get started!";
    StExpander "📖 How to use this app" "
        1. **Upload your data file** (CSV or Excel format)
        2. **Review the data preview** and analysis
        3. **Click 'Generate PDF Report'** to create a professional report
        4. **Download your report** and use it for your needs
        
        **Supported file formats:**
        - CSV (.csv)
        - Excel (.xlsx, .xls)
        ";
    StExpander "🎯 Features" "
        - 📊 Automatic data analysis
        - 📈 Statistical summaries
        - 📉 Data visualizations
        - 📄 Professional PDF reports
        - 🎨 Modern, responsive UI
        - ⚡ Fast processing
        " ].

Definition handler (uploaded_file : option UploadedFile) (clicked : bool)
    : list (widget Figure) :=
  match uploaded_file with
  | Some f =>
      let run := try_block f clicked in
      match outcome run with
      | Ok _ => shown run
      | Raise e => shown run ++ except_block e
      end
  | None => no_upload
  end.

(** Widgets of a kind. *)
Definition is_download (w : widget Figure) : bool :=
  match w with StDownloadButton _ _ _ _ => true | _ => false end.

Definition is_error (w : widget Figure) : bool :=
  match w with StError _ => true | _ => false end.

Definition is_chart (w : widget Figure) : bool :=
  match w with StPlotlyChart _ => true | _ => false end.

(** One of the two things the missing-values tab shows. *)
Definition is_missing_report (w : widget Figure) : bool :=
  match w with
  | StSuccess text => String.eqb text "✨ No missing values found!"
  | StDataframe (MissingCounts _) => true
  | _ => false
  end.

(** Neither a download button nor an error message. *)
Definition plain (w : widget Figure) : Prop :=
  is_download w = false ∧ is_error w = false.

End Handler.

(** A stand-in for the handler's libraries: every upload reads as
    [text_table] when its name ends in .csv and as [eleven_rows_table]
    otherwise. *)
Definition sample_page_libs : PageLibs (H := sample_libs) :=
  {| read_csv := fun _ => Ok text_table;
     read_excel := fun _ => Ok eleven_rows_table;
     histogram_figure := fun _ _ title _ => Ok (title : @Figure sample_libs);
     exn_str := exn_class;
     file_stamp := "20240101_120000" |}.

Definition csv_upload : UploadedFile :=
  {| file_name := "products.csv"; file_bytes := [] |}.

Definition excel_upload : UploadedFile :=
  {| file_name := "numbers.xlsx"; file_bytes := [] |}.

(** ** The sample-data script (src/create_sample_data.py)

    The script builds a frame of 100 rows from a list of dates and five
    random columns, blanks two ranges of cells and writes the frame to a CSV
    file.  The random draws are parameters of the model: [product i] is the
    i-th value drawn for the Product column, and so on. *)

(** [datetime(2024, 1, 1)] and [timedelta(days=1)], in nanoseconds. *)
Definition start_date : Z := 1704067200000000000.
Definition one_day : Z := 86400000000000.

(** [df.loc[first:last, name] = np.nan] on a floating column [name]: a
    slice of row labels takes both of its ends in, labels past the last row
    are ignored, and the column keeps its type. *)
Definition set_nan_rows (first last : nat) (cells : list pyobj) : list pyobj :=
  imap (fun i cell => if (first <=? i)%nat && (i <=? last)%nat then PNaN else cell)
    cells.

Definition loc_set_nan (first last : nat) (name : string) (df : DataFrame)
    : DataFrame :=
  {| df_len := df_len df;
     df_cols :=
       (fun c => if bool_decide (col_name c = name)
                 then {| col_name := col_name c;
                         col_dtype := col_dtype c;
                         col_cells := set_nan_rows first last (col_cells c) |}
                 else c) <$> df_cols df |}.

(** The rows at which a column is null. *)
Definition null_rows (c : Column) : list nat :=
  (filter (fun ic : nat * pyobj => isnull ic.2 = true) (imap pair (col_cells c))).*1.

Section SampleData.
Variables (product region : nat -> string) (sales : nat -> Z)
  (revenue customer_rating : nat -> Q).

(** [range(100)] *)
Definition range_100 : list nat := seq 0 100.

Definition sample_data : DataFrame :=
  let dates :=
    (fun x => PTimestamp (start_date + Z.of_nat x * one_day)%Z) <$> range_100 in
  let data :=
    [ column "Date" Datetime64 dates;
      column "Product" Object ((fun i => PStr (product i)) <$> range_100);
      column "Sales" Int64 ((fun i => PInt (sales i)) <$> range_100);
      column "Revenue" Float64 ((fun i => PFloat (revenue i)) <$> range_100);
      column "Region" Object ((fun i => PStr (region i)) <$> range_100);
      column "Customer_Rating" Float64
        ((fun i => PFloat (customer_rating i)) <$> range_100) ] in
  let df := {| df_len := 100; df_cols := data |} in
  let df := loc_set_nan 5 7 "Customer_Rating" df in
  let df := loc_set_nan 15 17 "Revenue" df in
  df.

End SampleData.

(** * Properties *)

(** ** Lists, dicts and the exception monad *)

(** Closes a goal with a decision procedure, by evaluation. *)
Ltac by_decide := apply (bool_decide_unpack _); vm_compute; exact I.

Lemma NoDup_fmap_same {A B} (f : A -> B) (l : list A) (x y : A) :
  NoDup (f <$> l) -> x ∈ l -> y ∈ l -> f x = f y -> x = y.
Proof.
  induction l as [|a l IH]; intros Hnd Hx Hy Hf.
  - by apply elem_of_nil in Hx.
  - rewrite fmap_cons in Hnd. apply NoDup_cons in Hnd as [Hfa Hnd].
    apply elem_of_cons in Hx as [->|Hx]; apply elem_of_cons in Hy as [->|Hy].
    + done.
    + exfalso. apply Hfa. rewrite Hf. by apply list_elem_of_fmap_2.
    + exfalso. apply Hfa. rewrite <- Hf. by apply list_elem_of_fmap_2.
    + by apply IH.
Qed.

Lemma foldl_insert_absent (items : list (string * nat)) (m : gmap string nat) k :
  k ∉ items.*1 ->
  foldl (fun m kv => <[kv.1 := kv.2]> m) m items !! k = m !! k.
Proof.
  revert m. induction items as [|[k' v'] items IH]; intros m Hk; [done|].
  rewrite fmap_cons in Hk. apply not_elem_of_cons in Hk as [Hne Hk].
  simpl. rewrite IH by done. by apply lookup_insert_ne.
Qed.

Lemma foldl_insert_present (items : list (string * nat)) (m : gmap string nat) k v :
  NoDup items.*1 -> (k, v) ∈ items ->
  foldl (fun m kv => <[kv.1 := kv.2]> m) m items !! k = Some v.
Proof.
  revert m. induction items as [|[k' v'] items IH]; intros m Hnd Hin.
  - by apply elem_of_nil in Hin.
  - rewrite fmap_cons in Hnd. apply NoDup_cons in Hnd as [Hfresh Hnd].
    apply elem_of_cons in Hin as [Heq|Hin].
    + inversion Heq; subst k' v'. simpl.
      rewrite foldl_insert_absent by done. apply lookup_insert_eq.
    + simpl. by apply IH.
Qed.

Lemma to_dict_lookup items k v :
  NoDup items.*1 -> (k, v) ∈ items -> to_dict items !! k = Some v.
Proof. apply foldl_insert_present. Qed.

Lemma isnull_sum_keys df : (isnull_sum df).*1 = columns df.
Proof.
  unfold isnull_sum, columns. rewrite <- list_fmap_compose.
  by apply list_fmap_ext.
Qed.

Lemma elem_of_selected include df name :
  name ∈ columns (select_dtypes include df) <->
  exists c, c ∈ df_cols df ∧ col_name c = name ∧ include (col_dtype c) = true.
Proof.
  unfold columns, select_dtypes. simpl. rewrite list_elem_of_fmap. split.
  - intros (c & -> & Hc). apply list_elem_of_filter in Hc as [Hi Hc]. eauto.
  - intros (c & Hc & <- & Hi). exists c. split; [done|].
    by apply list_elem_of_filter.
Qed.

Lemma head_dtypes n df :
  col_dtype <$> df_cols (head n df) = col_dtype <$> df_cols df.
Proof. unfold head. simpl. rewrite <- list_fmap_compose. by apply list_fmap_ext. Qed.

Lemma head_columns n df : columns (head n df) = columns df.
Proof.
  unfold columns, head. simpl. rewrite <- list_fmap_compose. by apply list_fmap_ext.
Qed.

Lemma row_at_head n df i : i < n -> row_at (head n df) i = row_at df i.
Proof.
  intros Hi. unfold row_at, head. simpl. rewrite <- list_fmap_compose.
  apply list_fmap_ext. intros _ c _. simpl. by rewrite lookup_take_lt.
Qed.

(** The rows of [df.head(n)] are the first [n] rows of [df], with the same
    cell conversion: the common type depends on the columns only. *)
Lemma values_tolist_head n df :
  values_tolist (head n df) = take n (values_tolist df).
Proof.
  unfold values_tolist. rewrite head_dtypes, <- fmap_take, take_seq.
  change (df_len (head n df)) with (n `min` df_len df).
  apply list_fmap_ext. intros k i Hk. apply lookup_seq in Hk as [-> Hk].
  rewrite row_at_head; [done|]. simpl. lia.
Qed.



Lemma number_not_object d : is_number d = true -> is_object d = true -> False.
Proof. by destruct d. Qed.

Section Profiler.
Context `{Libs}.

(** What [analyze_data] returns, when it returns. *)
Lemma analyze_data_fields df a :
  analyze_data df = Ok a ->
  total_rows a = df_len df ∧
  total_columns a = length (columns df) ∧
  numeric_columns a = columns (select_dtypes is_number df) ∧
  categorical_columns a = columns (select_dtypes is_object df) ∧
  missing_values a = to_dict (isnull_sum df).
Proof.
  unfold analyze_data. intros Ha.
  destruct (if (0 <? _)%nat then describe df else Ok []) as [s|e]; simpl in Ha;
    [|discriminate].
  by inversion Ha.
Qed.

(** [analyze_data] returns exactly when the [describe] call it makes, if it
    makes one, returns. *)
Lemma analyze_data_returns df :
  is_ok (analyze_data df) =
  if (0 <? length (columns (select_dtypes is_number df)))%nat
  then is_ok (describe df) else true.
Proof.
  unfold analyze_data.
  destruct (0 <? _)%nat; [|done]. by destruct (describe df).
Qed.

(** C1 as amended.  For a table with unique column names the numeric and
    the categorical name lists of the profile have no name in common, and
    a name is in one of them exactly when its column has a numeric or the
    object type.  Their union is all the column names exactly when every
    column has such a type: a bool or datetime column is in neither list. *)
Theorem numeric_categorical_split df a :
  NoDup (columns df) ->
  analyze_data df = Ok a ->
  (forall name, ¬ (name ∈ numeric_columns a ∧ name ∈ categorical_columns a)) ∧
  (forall name,
      name ∈ numeric_columns a ∨ name ∈ categorical_columns a <->
      exists c, c ∈ df_cols df ∧ col_name c = name ∧
                (is_number (col_dtype c) || is_object (col_dtype c)) = true) ∧
  ((forall name, name ∈ columns df ->
       name ∈ numeric_columns a ∨ name ∈ categorical_columns a) <->
   Forall (fun c => (is_number (col_dtype c) || is_object (col_dtype c)) = true)
     (df_cols df)).
Proof.
  intros Hnd Ha.
  apply analyze_data_fields in Ha as (_ & _ & Hn & Hc & _).
  rewrite Hn, Hc. clear Hn Hc.
  assert (Hcover : forall name,
    name ∈ columns (select_dtypes is_number df) ∨
    name ∈ columns (select_dtypes is_object df) <->
    exists c, c ∈ df_cols df ∧ col_name c = name ∧
              (is_number (col_dtype c) || is_object (col_dtype c)) = true).
  { intros name. rewrite !elem_of_selected. split.
    - intros [(c & Hc & Hname & Hd)|(c & Hc & Hname & Hd)];
        exists c; rewrite Hd; repeat split; try done.
      by rewrite orb_true_r.
    - intros (c & Hc & Hname & Hd). apply orb_true_iff in Hd as [Hd|Hd];
        [left|right]; eauto. }
  split; [|split; [exact Hcover|]].
  - intros name [Hnum Hobj].
    apply elem_of_selected in Hnum as (c1 & Hc1 & Hn1 & Hd1).
    apply elem_of_selected in Hobj as (c2 & Hc2 & Hn2 & Hd2).
    assert (c1 = c2) as ->.
    { apply (NoDup_fmap_same col_name (df_cols df)); [done..|congruence]. }
    by eapply number_not_object.
  - rewrite Forall_forall. split.
    + intros Hall c Hc.
      destruct (proj1 (Hcover (col_name c))) as (c' & Hc' & Hname & Hd).
      { apply Hall. unfold columns. by apply list_elem_of_fmap_2. }
      assert (c' = c) as <-; [|done].
      by apply (NoDup_fmap_same col_name (df_cols df)).
    + intros Hall name Hin. apply Hcover.
      unfold columns in Hin. apply list_elem_of_fmap in Hin as (c & -> & Hc).
      exists c. eauto.
Qed.

(** C7.  For a table with unique column names, the missing-value mapping of
    the profile has, under every column's name, the number of null cells
    (None, NaN, NaT) of that column: the length of the column when all its
    cells are null, 0 when none is. *)
Theorem missing_values_count df a :
  NoDup (columns df) ->
  analyze_data df = Ok a ->
  forall c, c ∈ df_cols df ->
    missing_values a !! col_name c
      = Some (length (filter (fun x => isnull x = true) (col_cells c))) ∧
    (Forall (fun x => isnull x = true) (col_cells c) ->
       missing_values a !! col_name c = Some (length (col_cells c))) ∧
    (Forall (fun x => isnull x = false) (col_cells c) ->
       missing_values a !! col_name c = Some 0%nat).
Proof.
  intros Hnd Ha c Hc.
  apply analyze_data_fields in Ha as (_ & _ & _ & _ & Hm).
  assert (Hlook : missing_values a !! col_name c = Some (count_null c)).
  { rewrite Hm. apply to_dict_lookup.
    - by rewrite isnull_sum_keys.
    - unfold isnull_sum.
      by apply (list_elem_of_fmap_2 (fun c => (col_name c, count_null c))). }
  split; [exact Hlook|]. rewrite Hlook. unfold count_null. split; intros Hall.
  - do 2 f_equal. clear Hlook Hc. induction Hall as [|x l Hx _ IH]; [done|].
    rewrite filter_cons_True by done. by rewrite IH.
  - do 2 f_equal. clear Hlook Hc. induction Hall as [|x l Hx _ IH]; [done|].
    rewrite filter_cons_False; [done|]. by rewrite Hx.
Qed.

(** Without numeric columns [describe] is not called. *)
Lemma analyze_data_no_describe df :
  columns (select_dtypes is_number df) = [] ->
  analyze_data df
  = Ok {| total_rows := df_len df;
          total_columns := length (columns df);
          numeric_columns := [];
          categorical_columns := columns (select_dtypes is_object df);
          missing_values := to_dict (isnull_sum df);
          summary_stats := [] |}.
Proof. intros Hnone. unfold analyze_data. by rewrite Hnone. Qed.

(** C8.  When the table has no numeric column, [analyze_data] returns (no
    library call is made that could raise) and the statistics mapping of
    the profile it returns is empty. *)
Theorem no_numeric_columns_empty_stats df :
  columns (select_dtypes is_number df) = [] ->
  exists a, analyze_data df = Ok a ∧
            summary_stats a = [] ∧ numeric_columns a = [].
Proof.
  intros Hnone. rewrite analyze_data_no_describe by done.
  eexists. by split.
Qed.

End Profiler.

Lemma numeric_categorical_split_witness :
  exists a, analyze_data (H := sample_libs) sales_table = Ok a ∧
    (forall name, ¬ (name ∈ numeric_columns a ∧ name ∈ categorical_columns a)) ∧
    (forall name,
        name ∈ numeric_columns a ∨ name ∈ categorical_columns a <->
        exists c, c ∈ df_cols sales_table ∧ col_name c = name ∧
                  (is_number (col_dtype c) || is_object (col_dtype c)) = true) ∧
    ((forall name, name ∈ columns sales_table ->
         name ∈ numeric_columns a ∨ name ∈ categorical_columns a) <->
     Forall (fun c => (is_number (col_dtype c) || is_object (col_dtype c)) = true)
       (df_cols sales_table)).
Proof.
  eexists. split; [reflexivity|].
  apply (numeric_categorical_split (H := sample_libs) sales_table).
  - by_decide.
  - reflexivity.
Defined.

(** C1 as stated fails: the one column of [flags_table] has the bool type,
    and its name is in neither list of the profile, whatever the libraries
    do. *)
Lemma bool_column_in_neither_list :
  NoDup (columns flags_table) ∧
  "flag" ∈ columns flags_table ∧
  (forall L : Libs, exists a,
    analyze_data flags_table = Ok a ∧
    ("flag" ∉ numeric_columns a) ∧ ("flag" ∉ categorical_columns a)).
Proof.
  split; [by_decide|].
  split; [by_decide|].
  intros L. eexists. split; [reflexivity|]. simpl.
  split; apply not_elem_of_nil.
Qed.

Lemma missing_values_count_witness :
  exists a, analyze_data (H := sample_libs) sales_table = Ok a ∧
    missing_values a !! "Revenue" = Some 1%nat.
Proof.
  eexists. split; [reflexivity|].
  refine (proj1 (missing_values_count (H := sample_libs) sales_table _ _ _
                   (column "Revenue" Float64 [PFloat 1000.5; PNaN; PFloat 250]) _)).
  - by_decide.
  - reflexivity.
  - do 2 apply list_elem_of_further. apply list_elem_of_here.
Defined.

Lemma no_numeric_columns_empty_stats_witness :
  exists a, analyze_data (H := sample_libs) text_table = Ok a ∧
            summary_stats a = [] ∧ numeric_columns a = [].
Proof.
  apply (no_numeric_columns_empty_stats (H := sample_libs) text_table).
  reflexivity.
Defined.

(** ** The Chart Renderer *)

Section Renderer.
Context `{Libs}.

(** The renderer in terms of the two charts. *)
Lemma create_visualizations_cases df numeric_cols :
  create_visualizations df numeric_cols =
  match numeric_cols with
  | [] => Ok []
  | [y1] => img1 ← bar_chart df y1; Ok [img1]
  | y1 :: y2 :: _ =>
      img1 ← bar_chart df y1; img2 ← line_chart df y2; Ok [img1; img2]
  end.
Proof.
  unfold create_visualizations, bar_chart, line_chart.
  destruct numeric_cols as [|y1 [|y2 rest]]; simpl; [done| |].
  - destruct (px_bar _ _ _ _ _) as [fig1|e]; simpl; [|done].
    by destruct (to_image fig1 _ _ _).
  - destruct (px_bar _ _ _ _ _) as [fig1|e]; simpl; [|done].
    destruct (to_image fig1 _ _ _) as [img1|e]; simpl; [|done].
    destruct (px_line _ _ _ _ _) as [fig2|e]; simpl; [|done].
    by destruct (to_image fig2 _ _ _).
Qed.

(** X1.  Provided the plotting and export calls it makes return, the
    renderer returns a list of charts: the empty list for no numeric
    column (no call is made then), one chart for exactly one numeric
    column, two charts for two or more. *)
Theorem chart_count df numeric_cols :
  renders df numeric_cols ->
  exists charts,
    create_visualizations df numeric_cols = Ok charts ∧
    (length numeric_cols = 0%nat -> charts = []) ∧
    (length numeric_cols = 1%nat -> length charts = 1%nat) ∧
    (2 <= length numeric_cols -> length charts = 2%nat).
Proof.
  intros Hr. rewrite create_visualizations_cases.
  destruct numeric_cols as [|y1 [|y2 rest]]; simpl in Hr.
  - exists []. repeat split; simpl; (done || lia).
  - destruct Hr as [Hbar _].
    destruct (bar_chart df y1) as [img1|e]; [|done].
    exists [img1]. repeat split; simpl; (done || lia).
  - destruct Hr as [Hbar Hline].
    destruct (bar_chart df y1) as [img1|e]; [|done].
    destruct (line_chart df y2) as [img2|e]; [|done].
    exists [img1; img2]. repeat split; simpl; (done || lia).
Qed.

(** Without numeric columns the renderer returns the empty list, not an
    exception. *)
Lemma create_visualizations_nil df : create_visualizations df [] = Ok [].
Proof. reflexivity. Qed.

(** A list the renderer returns has at most two charts. *)
Lemma create_visualizations_length df numeric_cols charts :
  create_visualizations df numeric_cols = Ok charts ->
  length charts = Nat.min 2 (length numeric_cols).
Proof.
  rewrite create_visualizations_cases.
  destruct numeric_cols as [|y1 [|y2 rest]]; simpl.
  - by intros [= <-].
  - destruct (bar_chart df y1); simpl; [|done]. by intros [= <-].
  - destruct (bar_chart df y1); simpl; [|done].
    destruct (line_chart df y2); simpl; [|done]. by intros [= <-].
Qed.

(** The argument check of the bar and the line chart: x is a slice of the
    index, y the name of a column. *)
Lemma px_xy_args df xs y :
  px_process_args df [("x", IndexValues xs); ("y", ColumnName y)]
  = if bool_decide (y = "x") then Raise NameError
    else if negb (bool_decide (y ∈ columns df)) then Raise ValueError
    else if (0 <? length xs)%nat && negb (df_len df =? length xs)%nat
         then Raise ValueError
    else Ok tt.
Proof.
  unfold px_process_args. change (reserved_names _) with [y].
  cbn [px_gather_all px_gather snd fst].
  assert (bool_decide ("x" ∈ [y]) = bool_decide (y = "x")) as ->.
  { apply bool_decide_ext. rewrite list_elem_of_singleton. split; congruence. }
  destruct (bool_decide (y = "x")); [done|].
  cbn [mbind result_bind default Nat.ltb Nat.leb andb negb].
  destruct (bool_decide (y ∈ columns df)); [|done].
  cbn [mbind result_bind default negb]. by destruct (_ && _).
Qed.

(** The bar chart is asked for with the whole table and the first ten index
    values: plotly accepts that only when the table has at most ten rows. *)
Lemma bar_args_accepted df y :
  y ≠ "x" -> y ∈ columns df -> df_len df <= 10 ->
  px_process_args df [("x", IndexValues (take 10 (index df))); ("y", ColumnName y)]
  = Ok tt.
Proof.
  intros Hx Hy Hlen. rewrite px_xy_args. unfold index.
  rewrite bool_decide_eq_false_2, bool_decide_eq_true_2 by done. simpl.
  rewrite length_take, length_seq, Nat.min_r by done.
  by rewrite Nat.eqb_refl, andb_false_r.
Qed.

Lemma bar_args_rejected df y :
  10 < df_len df ->
  px_process_args df [("x", IndexValues (take 10 (index df))); ("y", ColumnName y)]
  = Raise (if bool_decide (y = "x") then NameError else ValueError).
Proof.
  intros Hlen. rewrite px_xy_args. unfold index.
  destruct (bool_decide (y = "x")); [done|].
  destruct (bool_decide (y ∈ columns df)); simpl; [|done].
  rewrite length_take, length_seq, Nat.min_l by lia.
  assert ((df_len df =? 10)%nat = false) as -> by (apply Nat.eqb_neq; lia).
  done.
Qed.

(** The line chart is asked for with the first twenty rows and the first
    twenty index values, which always agree. *)
Lemma line_args_accepted df y :
  y ≠ "x" -> y ∈ columns df ->
  px_process_args (head 20 df)
    [("x", IndexValues (take 20 (index df))); ("y", ColumnName y)] = Ok tt.
Proof.
  intros Hx Hy. rewrite px_xy_args. unfold index. rewrite head_columns.
  rewrite bool_decide_eq_false_2, bool_decide_eq_true_2 by done. simpl.
  rewrite length_take, length_seq.
  by rewrite Nat.eqb_refl, andb_false_r.
Qed.


(** X2.  On a table of more than ten rows the renderer, given at least one
    numeric column, returns no chart: it ends in the exception plotly raises
    for the bar chart's arguments, the NameError of a name conflict when the
    column is named "x", and otherwise the ValueError of arguments of
    different lengths (ten x values, a longer column). *)
Theorem create_visualizations_long_table df y rest :
  10 < df_len df ->
  create_visualizations df (y :: rest)
  = Raise (if bool_decide (y = "x") then NameError else ValueError).
Proof.
  intros Hlen. unfold create_visualizations, px_bar. simpl.
  by rewrite bar_args_rejected.
Qed.

(** C3 at a table of eleven rows with one numeric column: the renderer
    returns no chart list, it raises ValueError, whatever the libraries do
    once the arguments are accepted. *)
Theorem eleven_rows_one_numeric_column_no_chart :
  df_len eleven_rows_table = 11%nat ∧
  columns (select_dtypes is_number eleven_rows_table) = ["a"] ∧
  create_visualizations eleven_rows_table ["a"] = Raise ValueError.
Proof.
  split; [done|]. split; [done|]. reflexivity.
Qed.

End Renderer.

Lemma create_visualizations_long_table_witness :
  create_visualizations (H := sample_libs) eleven_rows_table ["a"; "b"]
  = Raise ValueError ∧
  create_visualizations (H := sample_libs) eleven_rows_x_table ["x"]
  = Raise NameError.
Proof.
  split.
  - apply (create_visualizations_long_table (H := sample_libs) eleven_rows_table
             "a" ["b"]).
    simpl. lia.
  - apply (create_visualizations_long_table (H := sample_libs) eleven_rows_x_table
             "x" []).
    simpl. lia.
Defined.

Lemma chart_count_witness :
  exists charts,
    create_visualizations (H := sample_libs) sales_table ["Sales"; "Revenue"]
      = Ok charts ∧
    (length ["Sales"; "Revenue"] = 0%nat -> charts = []) ∧
    (length ["Sales"; "Revenue"] = 1%nat -> length charts = 1%nat) ∧
    (2 <= length ["Sales"; "Revenue"] -> length charts = 2%nat).
Proof.
  apply (chart_count (H := sample_libs) sales_table ["Sales"; "Revenue"]).
  split; reflexivity.
Defined.

(** ** The Report Composer: column widths *)

Lemma comprehension_const {A B} (y : B) (xs : list A) :
  comprehension (fun _ => Ok y) xs = Ok (replicate (length xs) y).
Proof. induction xs as [|x xs IH]; simpl; [done|]. by rewrite IH. Qed.

(** The width computation never raises: the division sits in the body of a
    comprehension over the columns, which is not evaluated when there is no
    column, and divides by a positive count otherwise. *)
Lemma col_widths_value df :
  col_widths df
  = Ok (replicate (length (columns df)) (column_width (length (columns df)))).
Proof.
  unfold col_widths. destruct (columns df) as [|name names] eqn:Hcols; [done|].
  rewrite <- (comprehension_const (column_width (length (name :: names)))).
  reflexivity.
Qed.

Lemma total_width_replicate n w :
  (total_width (replicate n w) == inject_Z (Z.of_nat n) * w)%Q.
Proof.
  induction n as [|n IH].
  - simpl. ring.
  - change (total_width (replicate (S n) w)) with (w + total_width (replicate n w))%Q.
    rewrite IH, Nat2Z.inj_succ. unfold Z.succ. rewrite inject_Z_plus. ring.
Qed.

Lemma inject_Z_of_nat_nonzero n : (1 <= n)%nat -> ¬ (inject_Z (Z.of_nat n) == 0)%Q.
Proof. intros Hn. unfold Qeq. simpl. lia. Qed.

(** C4 as amended.  For a table with C >= 1 columns the preview widths are C
    equal numbers, each the page width (not the printable width) divided by C,
    minus 20; in exact arithmetic they sum to the page width minus 20 C, which
    is the printable width of the document for no C. *)
Theorem preview_widths df :
  (1 <= length (columns df))%nat ->
  exists w,
    col_widths df = Ok (replicate (length (columns df)) w) ∧
    (w == fst (pagesize report_doc) / inject_Z (Z.of_nat (length (columns df))) - 20)%Q ∧
    (total_width (replicate (length (columns df)) w)
       == fst (pagesize report_doc) - 20 * inject_Z (Z.of_nat (length (columns df))))%Q ∧
    ¬ (total_width (replicate (length (columns df)) w)
         == printable_width report_doc)%Q.
Proof.
  intros HC. exists (column_width (length (columns df))).
  assert (Hsum :
    (total_width (replicate (length (columns df)) (column_width (length (columns df))))
       == fst (pagesize report_doc) - 20 * inject_Z (Z.of_nat (length (columns df))))%Q).
  { rewrite total_width_replicate. unfold column_width. simpl.
    field. by apply inject_Z_of_nat_nonzero. }
  split; [apply col_widths_value|]. split; [reflexivity|]. split; [exact Hsum|].
  rewrite Hsum. unfold printable_width, Qeq. simpl. lia.
Qed.

Lemma preview_widths_witness :
  exists w,
    col_widths sales_table = Ok (replicate 3 w) ∧
    (w == 612 / 3 - 20)%Q ∧
    (total_width (replicate 3 w) == 612 - 20 * 3)%Q ∧
    ¬ (total_width (replicate 3 w) == printable_width report_doc)%Q.
Proof.
  apply (preview_widths sales_table). simpl. lia.
Defined.

(** C4 as stated fails: the one preview column of [flags_table] gets the
    width 592, not the printable width 468 of the document. *)
Lemma one_column_width_is_not_printable_width :
  (printable_width report_doc == 468)%Q ∧
  exists w, col_widths flags_table = Ok [w] ∧
            (w == 592)%Q ∧
            ¬ (w == printable_width report_doc / 1)%Q ∧
            ¬ (total_width [w] == printable_width report_doc)%Q.
Proof.
  split; [reflexivity|].
  eexists. split; [reflexivity|]. by repeat split.
Qed.

(** ** The Report Composer: data preview *)

Lemma len_app s1 s2 : len (s1 +:+ s2) = (len s1 + len s2)%nat.
Proof.
  induction s1 as [|a s1 IH]; simpl; [done|].
  destruct (is_continuation a); simpl; by rewrite IH.
Qed.

(** [s[:n]] is the longest beginning of [s] of at most [n] characters: it
    ends where a character of [s] starts. *)
Lemma slice_to_spec n s :
  len (slice_to n s) = (n `min` len s)%nat ∧
  exists rest, s = slice_to n s +:+ rest ∧ starts_character rest.
Proof.
  revert n. induction s as [|a s IH]; intros n; simpl.
  - split; [lia|]. by exists "".
  - destruct (is_continuation a) eqn:Ha.
    + destruct (IH n) as (Hlen & rest & Hs & Hrest). simpl. rewrite Ha.
      split; [done|]. exists rest. split; [|done].
      change (String a s = String a (slice_to n s +:+ rest)). by f_equal.
    + destruct n as [|n].
      * simpl. split; [done|]. exists (String a s). by split.
      * destruct (IH n) as (Hlen & rest & Hs & Hrest). simpl. rewrite Ha.
        split; [lia|]. exists rest. split; [|done].
        change (String a s = String a (slice_to n s +:+ rest)). by f_equal.
Qed.

Lemma len_slice_to n s : n <= len s -> len (slice_to n s) = n.
Proof. intros Hn. rewrite (proj1 (slice_to_spec n s)). lia. Qed.

(** Text in which every byte is a character (ASCII) is counted and cut by
    bytes. *)
Lemma len_ascii s :
  Forall (fun a => is_continuation a = false) (String.list_ascii_of_string s) ->
  len s = String.length s ∧ forall n, slice_to n s = String.substring 0 n s.
Proof.
  induction s as [|a s IH]; simpl; intros Hall.
  - split; [done|]. by intros [|n].
  - apply Forall_cons in Hall as [Ha Hall]. destruct (IH Hall) as [Hlen Hcut].
    rewrite Ha. split; [by rewrite Hlen|].
    intros [|n]; [done|]. by rewrite Hcut.
Qed.

Section Preview.
Context `{Libs}.

(** The preview, with [head] pushed through [values]. *)
Lemma preview_data_take df :
  preview_data df
    = (truncate_cell <$> (PStr <$> columns df))
      :: ((fun row : list pyobj => truncate_cell <$> row)
            <$> take 10 (values_tolist df)).
Proof. unfold preview_data. by rewrite values_tolist_head. Qed.


(** A column name is a string, so a header cell is the name, cut like any
    other cell. *)
Lemma preview_header_cell name :
  truncate_cell (PStr name)
  = if (20 <? len name)%nat then slice_to 20 name +:+ "..." else name.
Proof. reflexivity. Qed.

End Preview.

(** ** The Report Composer: the story *)

Lemma new_table_ok data widths style row :
  row ∈ data -> row ≠ [] -> new_table data widths style = Ok (Table data widths style).
Proof.
  intros Hin Hrow. unfold new_table.
  assert (Hn : length data ≠ 0%nat).
  { destruct data; [by apply elem_of_nil in Hin|done]. }
  assert (Hc : max_list (length <$> data) ≠ 0%nat).
  { assert (length row <= max_list (length <$> data)).
    { apply max_list_elem_of_le. by apply list_elem_of_fmap_2. }
    destruct row; [done|]. simpl in *. lia. }
  apply Nat.eqb_neq in Hn, Hc. by rewrite Hn, Hc.
Qed.

Lemma new_table_no_columns data widths style :
  Forall (fun row => row = []) data -> new_table data widths style = Raise ValueError.
Proof.
  intros Hall. unfold new_table.
  assert (max_list (length <$> data) = 0%nat) as ->.
  { induction Hall as [|row rows -> _ IH]; [done|].
    rewrite fmap_cons. cbn [max_list length]. by rewrite IH. }
  by rewrite orb_true_r.
Qed.

Lemma bind_Ok {A B} (m : result A) (k : A -> result B) b :
  m ≫= k = Ok b -> exists a, m = Ok a ∧ k a = Ok b.
Proof. destruct m as [a|e]; simpl; [by exists a|done]. Qed.



(** A comprehension whose body returns under a condition and raises [E]
    otherwise. *)
Lemma comprehension_if {A B} (c : A -> bool) (g : A -> B) (E : exn)
    (f : A -> result B) xs :
  (forall x, f x = if c x then Ok (g x) else Raise E) ->
  comprehension f xs = if forallb c xs then Ok (g <$> xs) else Raise E.
Proof.
  intros Hf. induction xs as [|x xs IH]; simpl; [done|].
  rewrite Hf, IH. destruct (c x); simpl; [|done]. by destruct (forallb c xs).
Qed.

Section Composer.
Context `{Libs}.

(** The blocks of the story, in closed form: a block is made when the texts
    of its paragraphs are accepted and its table is not empty, and ends in
    ValueError otherwise. *)
Lemma title_block_value :
  title_block
  = if para_parses "Automated Data Analysis Report"
       && para_parses ("Generated on: " +:+ generated_on)
    then Ok [ Paragraph "Automated Data Analysis Report" title_style;
              Paragraph ("Generated on: " +:+ generated_on) Normal;
              Spacer 1 20 ]
    else Raise ValueError.
Proof.
  unfold title_block, new_paragraph.
  destruct (para_parses "Automated Data Analysis Report"); [|done].
  by destruct (para_parses ("Generated on: " +:+ generated_on)).
Qed.

Lemma summary_block_value analysis :
  summary_block analysis
  = if para_parses "Executive Summary"
    then Ok [ Paragraph "Executive Summary" heading_style;
              Table (summary_data analysis) [3 * inch; 3 * inch]%Q
                summary_table_style;
              Spacer 1 20 ]
    else Raise ValueError.
Proof.
  unfold summary_block, new_paragraph.
  by destruct (para_parses "Executive Summary").
Qed.

Lemma column_info_block_value analysis :
  column_info_block analysis
  = if para_parses "Column Information"
       && para_parses (numeric_info_text analysis)
       && para_parses (categorical_info_text analysis)
    then Ok [ Paragraph "Column Information" heading_style;
              numeric_info analysis;
              Spacer 1 10;
              Paragraph (categorical_info_text analysis) Normal;
              Spacer 1 20 ]
    else Raise ValueError.
Proof.
  unfold column_info_block, new_paragraph.
  destruct (para_parses "Column Information"); [|done].
  destruct (para_parses (numeric_info_text analysis)); [|done].
  by destruct (para_parses (categorical_info_text analysis)).
Qed.

Lemma stats_entry_value entry :
  stats_entry entry
  = if para_parses (stats_entry_text entry) && truthy entry.2
    then Ok (stats_entry_flowables entry)
    else Raise ValueError.
Proof.
  unfold stats_entry, new_paragraph.
  destruct (para_parses (stats_entry_text entry)); [|done].
  destruct entry as [name [|kv stats]]; [done|].
  cbn [mbind result_bind andb truthy snd].
  erewrite new_table_ok; [done|apply list_elem_of_here|done].
Qed.

Lemma stats_block_value analysis :
  stats_block analysis
  = if truthy (summary_stats analysis) then
      if para_parses "Statistical Summary"
         && forallb (fun entry => para_parses (stats_entry_text entry)
                                  && truthy entry.2)
              (take 3 (summary_stats analysis))
      then Ok (stats_heading
               :: concat (stats_entry_flowables <$> take 3 (summary_stats analysis)))
      else Raise ValueError
    else Ok [].
Proof.
  unfold stats_block, new_paragraph. destruct (truthy _); [|done].
  destruct (para_parses "Statistical Summary"); [|done].
  cbn [mbind result_bind andb].
  rewrite (comprehension_if _ _ _ _ _ stats_entry_value).
  by destruct (forallb _ _).
Qed.

Lemma preview_data_no_columns df :
  df_cols df = [] -> Forall (fun row => row = []) (preview_data df).
Proof.
  intros Hcols. rewrite preview_data_take. unfold columns. rewrite Hcols.
  constructor; [done|]. apply Forall_fmap, Forall_take.
  unfold values_tolist, row_at. rewrite Hcols.
  apply Forall_fmap, Forall_true. by intros i.
Qed.

Lemma preview_block_value df :
  preview_block df
  = if para_parses "Data Preview (First 10 Rows)" && truthy (df_cols df)
    then Ok [ PageBreak;
              Paragraph "Data Preview (First 10 Rows)" heading_style;
              Table (preview_data df)
                (replicate (length (columns df)) (column_width (length (columns df))))
                preview_table_style ]
    else Raise ValueError.
Proof.
  unfold preview_block, new_paragraph.
  destruct (para_parses "Data Preview (First 10 Rows)"); [|done].
  cbn [mbind result_bind andb]. rewrite col_widths_value.
  cbn [mbind result_bind].
  destruct (df_cols df) as [|c cs] eqn:Hcols; cbn [truthy].
  - by rewrite new_table_no_columns by by apply preview_data_no_columns.
  - erewrite new_table_ok; [done| |].
    + unfold preview_data. apply list_elem_of_here.
    + unfold columns. by rewrite Hcols.
Qed.

Lemma chart_entry_value chart_bytes :
  chart_entry chart_bytes
  = match read_image chart_bytes with
    | Ok _ => Ok (chart_flowables chart_bytes)
    | Raise e => Raise e
    end.
Proof. unfold chart_entry, new_image. by destruct (read_image chart_bytes). Qed.

Lemma chart_entries_Ok charts entries :
  comprehension chart_entry charts = Ok entries ->
  entries = chart_flowables <$> charts.
Proof.
  revert entries. induction charts as [|c cs IH]; intros entries; simpl.
  - by intros [= <-].
  - rewrite chart_entry_value. destruct (read_image c); simpl; [|done].
    destruct (comprehension chart_entry cs) as [es|]; simpl; [|done].
    intros [= <-]. by rewrite (IH es).
Qed.



Lemma charts_block_Ok charts els :
  charts_block charts = Ok els ->
  els = if truthy charts
        then PageBreak :: charts_heading :: concat (chart_flowables <$> charts)
        else [].
Proof.
  unfold charts_block, new_paragraph. destruct (truthy charts); [|by intros [= <-]].
  destruct (para_parses "Data Visualizations"); [|done].
  cbn [mbind result_bind].
  destruct (comprehension chart_entry charts) as [entries|] eqn:Hc; simpl; [|done].
  intros [= <-]. by rewrite (chart_entries_Ok _ _ Hc).
Qed.



(** The blocks before the charts raise nothing but ValueError. *)
Lemma title_block_raises e : title_block = Raise e -> e = ValueError.
Proof. rewrite title_block_value. destruct (_ && _); [done|by intros [= <-]]. Qed.

Lemma summary_block_raises analysis e :
  summary_block analysis = Raise e -> e = ValueError.
Proof. rewrite summary_block_value. destruct (para_parses _); [done|by intros [= <-]]. Qed.

Lemma column_info_block_raises analysis e :
  column_info_block analysis = Raise e -> e = ValueError.
Proof.
  rewrite column_info_block_value. destruct (_ && _); [done|by intros [= <-]].
Qed.

Lemma stats_block_raises analysis e :
  stats_block analysis = Raise e -> e = ValueError.
Proof.
  rewrite stats_block_value. destruct (truthy _); [|done].
  destruct (_ && _); [done|by intros [= <-]].
Qed.


Lemma preview_block_no_columns df :
  df_cols df = [] -> preview_block df = Raise ValueError.
Proof.
  intros Hcols. rewrite preview_block_value, Hcols. by rewrite andb_false_r.
Qed.

(** The story is the six blocks, each made. *)
Lemma report_elements_inv df analysis charts els :
  report_elements df analysis charts = Ok els ->
  exists title summary info stats preview images,
    title_block = Ok title ∧ summary_block analysis = Ok summary ∧
    column_info_block analysis = Ok info ∧ stats_block analysis = Ok stats ∧
    preview_block df = Ok preview ∧ charts_block charts = Ok images ∧
    els = (title ++ summary ++ info ++ stats ++ preview ++ images)%list.
Proof.
  unfold report_elements. intros Hel.
  apply bind_Ok in Hel as (title & Ht & Hel).
  apply bind_Ok in Hel as (summary & Hs & Hel).
  apply bind_Ok in Hel as (info & Hi & Hel).
  apply bind_Ok in Hel as (stats & Hst & Hel).
  apply bind_Ok in Hel as (preview & Hp & Hel).
  apply bind_Ok in Hel as (images & Hc & Hel).
  injection Hel as <-. by exists title, summary, info, stats, preview, images.
Qed.


Lemma report_elements_no_columns df analysis charts :
  df_cols df = [] -> report_elements df analysis charts = Raise ValueError.
Proof.
  intros Hcols. unfold report_elements.
  destruct title_block as [title|e] eqn:Ht; simpl;
    [|by rewrite (title_block_raises _ Ht)].
  destruct (summary_block analysis) as [summary|e] eqn:Hs; simpl;
    [|by rewrite (summary_block_raises _ _ Hs)].
  destruct (column_info_block analysis) as [info|e] eqn:Hi; simpl;
    [|by rewrite (column_info_block_raises _ _ Hi)].
  destruct (stats_block analysis) as [stats|e] eqn:Hst; simpl;
    [|by rewrite (stats_block_raises _ _ Hst)].
  by rewrite preview_block_no_columns.
Qed.

Lemma generate_pdf_report_no_columns df analysis charts :
  df_cols df = [] -> generate_pdf_report df analysis charts = Raise ValueError.
Proof.
  intros Hcols. unfold generate_pdf_report.
  by rewrite report_elements_no_columns.
Qed.

(** C10 as amended.  For a table without columns the width computation
    divides nothing and yields the empty list; the composer raises no
    ZeroDivisionError.  It fails further on, with reportlab's ValueError,
    when a table has no column (at the latest the preview table). *)
Theorem no_columns_no_division df analysis charts :
  df_cols df = [] ->
  col_widths df = Ok [] ∧
  generate_pdf_report df analysis charts = Raise ValueError ∧
  generate_pdf_report df analysis charts ≠ Raise ZeroDivisionError.
Proof.
  intros Hcols. rewrite generate_pdf_report_no_columns by done.
  split; [|done]. rewrite col_widths_value. unfold columns. by rewrite Hcols.
Qed.




End Composer.




Lemma no_columns_no_division_witness :
  col_widths no_columns_table = Ok [] ∧
  generate_pdf_report (H := sample_libs) no_columns_table
    {| total_rows := 0; total_columns := 0; numeric_columns := [];
       categorical_columns := []; missing_values := ∅; summary_stats := [] |} []
    = Raise ValueError ∧
  generate_pdf_report (H := sample_libs) no_columns_table
    {| total_rows := 0; total_columns := 0; numeric_columns := [];
       categorical_columns := []; missing_values := ∅; summary_stats := [] |} []
    ≠ Raise ZeroDivisionError.
Proof.
  apply (no_columns_no_division (H := sample_libs) no_columns_table).
  reflexivity.
Defined.

(** C10 as stated fails: on the table without columns the width computation
    returns the empty list, and the composer does not end in a
    ZeroDivisionError, whatever the profile, the charts and the libraries. *)
Lemma no_columns_table_divides_nothing :
  df_cols no_columns_table = [] ∧
  col_widths no_columns_table = Ok [] ∧
  (forall (L : Libs) analysis charts,
     generate_pdf_report no_columns_table analysis charts ≠ Raise ZeroDivisionError).
Proof.
  split; [done|]. split; [done|].
  intros L analysis charts. by rewrite generate_pdf_report_no_columns.
Qed.

(** ** The pipeline: its exceptions, and empty tables *)

Section Pipeline.
Context `{Libs}.











End Pipeline.




(** ** The stages on the store: what they leave untouched *)

Section Keeps.
Context (h0 : heap).

Lemma keeps_ret {A} (a : A) (post : A -> Prop) :
  post a -> keeps h0 (mret a) post.
Proof. intros Ha h Hh. by split. Qed.

Lemma keeps_pure {A} (r : result A) : keeps h0 (pure r) (fun _ => True).
Proof. intros h Hh. simpl. split; [done|]. by destruct r. Qed.

Lemma keeps_bind {A B} (s : St A) (f : A -> St B) post post' :
  keeps h0 s post ->
  (forall a, post a -> keeps h0 (f a) post') ->
  keeps h0 (s ≫= f) post'.
Proof.
  intros Hs Hf h Hh. destruct (Hs h Hh) as [Hsub Hpost]. simpl.
  destruct (run s h) as [[a|e] h']; simpl in *; [|done].
  by apply Hf.
Qed.

Lemma keeps_weaken {A} (s : St A) (post post' : A -> Prop) :
  keeps h0 s post -> (forall a, post a -> post' a) -> keeps h0 s post'.
Proof.
  intros Hs Himp h Hh. destruct (Hs h Hh) as [Hsub Hpost].
  split; [done|]. destruct (run s h).1; [by apply Himp|done].
Qed.

(** A new object lives at an address that [h0] does not use. *)
Lemma keeps_new o : keeps h0 (new o) (fun l => h0 !! l = None).
Proof.
  intros h Hh. simpl.
  assert (Hfresh : h !! fresh (dom h) = None).
  { apply not_elem_of_dom, is_fresh. }
  assert (h0 !! fresh (dom h) = None) by by eapply lookup_weaken_None.
  split; [|done]. by apply insert_subseteq_r.
Qed.

Lemma keeps_load l : keeps h0 (load l) (fun _ => True).
Proof. intros h Hh. simpl. by destruct (h !! l). Qed.

(** Writing to an object that [h0] does not hold keeps [h0]. *)
Lemma keeps_append_image l x :
  h0 !! l = None -> keeps h0 (append_image l x) (fun _ => True).
Proof.
  intros Hl h Hh. simpl. destruct (h !! l) as [[]|]; simpl; try done.
  split; [|done]. by apply insert_subseteq_r.
Qed.

Lemma keeps_append_flowable l x :
  h0 !! l = None -> keeps h0 (append_flowable l x) (fun _ => True).
Proof.
  intros Hl h Hh. simpl. destruct (h !! l) as [[]|]; simpl; try done.
  split; [|done]. by apply insert_subseteq_r.
Qed.

Lemma keeps_append_flowables l xs :
  h0 !! l = None -> keeps h0 (append_flowables l xs) (fun _ => True).
Proof.
  intros Hl. induction xs as [|x xs IH]; simpl.
  - by apply keeps_ret.
  - eapply keeps_bind; [by apply keeps_append_flowable|]. by intros _ _.
Qed.

Lemma keeps_write_buffer l content :
  h0 !! l = None -> keeps h0 (write_buffer l content) (fun _ => True).
Proof.
  intros Hl h Hh. simpl. destruct (h !! l) as [[]|]; simpl; try done.
  split; [|done]. by apply insert_subseteq_r.
Qed.

(** Reading an object. *)
Lemma keeps_frame_at l : keeps h0 (frame_at l) (fun _ => True).
Proof.
  eapply keeps_bind; [apply keeps_load|].
  intros [] _; first [by apply keeps_ret | apply keeps_pure].
Qed.

Lemma keeps_names_at l : keeps h0 (names_at l) (fun _ => True).
Proof.
  eapply keeps_bind; [apply keeps_load|].
  intros [] _; first [by apply keeps_ret | apply keeps_pure].
Qed.

Lemma keeps_counts_at l : keeps h0 (counts_at l) (fun _ => True).
Proof.
  eapply keeps_bind; [apply keeps_load|].
  intros [] _; first [by apply keeps_ret | apply keeps_pure].
Qed.

Lemma keeps_stats_at l : keeps h0 (stats_at l) (fun _ => True).
Proof.
  eapply keeps_bind; [apply keeps_load|].
  intros [] _; first [by apply keeps_ret | apply keeps_pure].
Qed.

Lemma keeps_images_at l : keeps h0 (images_at l) (fun _ => True).
Proof.
  eapply keeps_bind; [apply keeps_load|].
  intros [] _; first [by apply keeps_ret | apply keeps_pure].
Qed.

Lemma keeps_story_at l : keeps h0 (story_at l) (fun _ => True).
Proof.
  eapply keeps_bind; [apply keeps_load|].
  intros [] _; first [by apply keeps_ret | apply keeps_pure].
Qed.

Lemma keeps_analysis_at l : keeps h0 (analysis_at l) (fun _ => True).
Proof.
  eapply keeps_bind; [apply keeps_load|].
  intros [] _; try apply keeps_pure.
  eapply keeps_bind; [apply keeps_names_at|]. intros ? _.
  eapply keeps_bind; [apply keeps_names_at|]. intros ? _.
  eapply keeps_bind; [apply keeps_counts_at|]. intros ? _.
  eapply keeps_bind; [apply keeps_stats_at|]. intros ? _.
  by apply keeps_ret.
Qed.

Lemma keeps_numeric_columns_ref l :
  keeps h0 (numeric_columns_ref l) (fun _ => True).
Proof.
  eapply keeps_bind; [apply keeps_load|].
  intros [] _; first [by apply keeps_ret | apply keeps_pure].
Qed.

Context `{Libs}.

Lemma keeps_analyze_data df : keeps h0 (analyze_data_st df) (fun _ => True).
Proof.
  unfold analyze_data_st.
  eapply keeps_bind; [apply keeps_frame_at|]. intros d _.
  eapply keeps_bind; [apply keeps_new|]. intros numeric _.
  eapply keeps_bind; [apply keeps_new|]. intros categorical _.
  eapply keeps_bind; [apply keeps_new|]. intros missing _.
  eapply keeps_bind; [apply keeps_pure|]. intros s _.
  eapply keeps_bind; [apply keeps_new|]. intros stats _.
  eapply keeps_weaken; [apply keeps_new|done].
Qed.

Lemma keeps_create_visualizations df numeric_cols :
  keeps h0 (create_visualizations_st df numeric_cols) (fun _ => True).
Proof.
  unfold create_visualizations_st.
  eapply keeps_bind; [apply keeps_new|]. intros charts Hcharts.
  eapply keeps_bind; [apply keeps_frame_at|]. intros d _.
  eapply keeps_bind; [apply keeps_names_at|]. intros cols _.
  eapply keeps_bind with (post := fun _ => True);
    [|intros _ _; by apply keeps_ret].
  destruct (0 <? length cols)%nat; [|by apply keeps_ret].
  eapply keeps_bind; [apply keeps_pure|]. intros y1 _.
  eapply keeps_bind; [apply keeps_pure|]. intros fig1 _.
  eapply keeps_bind; [apply keeps_pure|]. intros img1 _.
  eapply keeps_bind; [by apply keeps_append_image|]. intros _ _.
  destruct (2 <=? length cols)%nat; [|by apply keeps_ret].
  eapply keeps_bind; [apply keeps_pure|]. intros y2 _.
  eapply keeps_bind; [apply keeps_pure|]. intros fig2 _.
  eapply keeps_bind; [apply keeps_pure|]. intros img2 _.
  by apply keeps_append_image.
Qed.

Lemma keeps_generate_pdf_report df analysis charts :
  keeps h0 (generate_pdf_report_st df analysis charts) (fun _ => True).
Proof.
  unfold generate_pdf_report_st.
  eapply keeps_bind; [apply keeps_new|]. intros buffer Hbuffer.
  eapply keeps_bind; [apply keeps_new|]. intros elements Helements.
  eapply keeps_bind; [apply keeps_analysis_at|]. intros a _.
  eapply keeps_bind; [apply keeps_pure|]. intros title _.
  eapply keeps_bind; [by apply keeps_append_flowables|]. intros _ _.
  eapply keeps_bind; [apply keeps_pure|]. intros summary _.
  eapply keeps_bind; [by apply keeps_append_flowables|]. intros _ _.
  eapply keeps_bind; [apply keeps_pure|]. intros info _.
  eapply keeps_bind; [by apply keeps_append_flowables|]. intros _ _.
  eapply keeps_bind; [apply keeps_pure|]. intros stats _.
  eapply keeps_bind; [by apply keeps_append_flowables|]. intros _ _.
  eapply keeps_bind; [apply keeps_frame_at|]. intros d _.
  eapply keeps_bind; [apply keeps_pure|]. intros preview _.
  eapply keeps_bind; [by apply keeps_append_flowables|]. intros _ _.
  eapply keeps_bind; [apply keeps_images_at|]. intros cs _.
  eapply keeps_bind; [apply keeps_pure|]. intros images _.
  eapply keeps_bind; [by apply keeps_append_flowables|]. intros _ _.
  eapply keeps_bind; [apply keeps_story_at|]. intros story _.
  eapply keeps_bind; [apply keeps_pure|]. intros content _.
  eapply keeps_bind; [by apply keeps_write_buffer|]. intros _ _.
  by apply keeps_ret.
Qed.

Lemma keeps_pipeline df : keeps h0 (pipeline_st df) (fun _ => True).
Proof.
  unfold pipeline_st.
  eapply keeps_bind; [apply keeps_analyze_data|]. intros analysis _.
  eapply keeps_bind; [apply keeps_numeric_columns_ref|]. intros numeric _.
  eapply keeps_bind; [apply keeps_create_visualizations|]. intros charts _.
  apply keeps_generate_pdf_report.
Qed.

End Keeps.

(** C9.  Each stage, run on any heap with any references for its
    arguments, ends (normally or with an exception) on a heap that extends
    the one it started on: every object that existed before the call (the
    table, the profile dict and the lists it refers to, the chart list) is
    still there with the same content.  What the stages write are objects
    they created themselves.  The same holds for the three stages run in
    sequence by the handler. *)
Theorem stages_keep_their_inputs `{Libs} (h : heap)
    (df numeric_cols analysis charts : loc) :
  h ⊆ (run (analyze_data_st df) h).2 ∧
  h ⊆ (run (create_visualizations_st df numeric_cols) h).2 ∧
  h ⊆ (run (generate_pdf_report_st df analysis charts) h).2 ∧
  h ⊆ (run (pipeline_st df) h).2.
Proof.
  repeat split.
  - by apply (keeps_analyze_data h df h).
  - by apply (keeps_create_visualizations h df numeric_cols h).
  - by apply (keeps_generate_pdf_report h df analysis charts h).
  - by apply (keeps_pipeline h df h).
Qed.

(** ** The stages on the store compute what the value-level functions do *)

Lemma run_bind {A B} (s : St A) (f : A -> St B) h :
  run (s ≫= f) h
  = match run s h with
    | (Ok a, h') => run (f a) h'
    | (Raise e, h') => (Raise e, h')
    end.
Proof. reflexivity. Qed.

Lemma run_frame_at h l df :
  h !! l = Some (OFrame df) -> run (frame_at l) h = (Ok df, h).
Proof. intros Hl. unfold frame_at. rewrite run_bind. simpl. by rewrite Hl. Qed.

Lemma run_names_at h l xs :
  h !! l = Some (ONames xs) -> run (names_at l) h = (Ok xs, h).
Proof. intros Hl. unfold names_at. rewrite run_bind. simpl. by rewrite Hl. Qed.

Lemma run_counts_at h l m :
  h !! l = Some (OCounts m) -> run (counts_at l) h = (Ok m, h).
Proof. intros Hl. unfold counts_at. rewrite run_bind. simpl. by rewrite Hl. Qed.

Lemma run_stats_at h l s :
  h !! l = Some (OStats s) -> run (stats_at l) h = (Ok s, h).
Proof. intros Hl. unfold stats_at. rewrite run_bind. simpl. by rewrite Hl. Qed.

Lemma run_images_at h l xs :
  h !! l = Some (OImages xs) -> run (images_at l) h = (Ok xs, h).
Proof. intros Hl. unfold images_at. rewrite run_bind. simpl. by rewrite Hl. Qed.

Lemma run_story_at h l xs :
  h !! l = Some (OStory xs) -> run (story_at l) h = (Ok xs, h).
Proof. intros Hl. unfold story_at. rewrite run_bind. simpl. by rewrite Hl. Qed.

Lemma run_append_image h l xs x :
  h !! l = Some (OImages xs) ->
  run (append_image l x) h = (Ok tt, <[l := OImages (xs ++ [x])]> h).
Proof. intros Hl. simpl. by rewrite Hl. Qed.

Lemma run_append_flowables h l xs ys :
  h !! l = Some (OStory xs) ->
  run (append_flowables l ys) h = (Ok tt, <[l := OStory (xs ++ ys)]> h).
Proof.
  revert h xs. induction ys as [|y ys IH]; intros h xs Hl.
  - cbn [append_flowables]. by rewrite app_nil_r, insert_id.
  - cbn [append_flowables]. rewrite run_bind. cbn [append_flowable run]. rewrite Hl.
    rewrite (IH _ (xs ++ [y])%list) by apply lookup_insert_eq.
    by rewrite insert_insert_eq, <- app_assoc.
Qed.

Lemma holds_analysis_mono h h' l a :
  h ⊆ h' -> holds_analysis h l a -> holds_analysis h' l a.
Proof.
  intros Hsub (n & c & m & s & Hl & Hn & Hc & Hm & Hs).
  exists n, c, m, s. repeat split; by eapply lookup_weaken.
Qed.

Lemma run_analysis_at h l a :
  holds_analysis h l a -> run (analysis_at l) h = (Ok a, h).
Proof.
  intros (n & c & m & s & Hl & Hn & Hc & Hm & Hs).
  unfold analysis_at. rewrite run_bind. cbn [load run]. rewrite Hl.
  rewrite run_bind, (run_names_at _ _ _ Hn).
  rewrite run_bind, (run_names_at _ _ _ Hc).
  rewrite run_bind, (run_counts_at _ _ _ Hm).
  rewrite run_bind, (run_stats_at _ _ _ Hs).
  by destruct a.
Qed.

Lemma fresh_unused (h : heap) : h !! fresh (dom h) = None.
Proof. apply not_elem_of_dom, is_fresh. Qed.

Lemma lookup_insert_fresh (h : heap) l o l' o' :
  h !! l = None -> h !! l' = Some o' -> <[l := o]> h !! l' = Some o'.
Proof. intros Hl Hl'. rewrite lookup_insert_ne; [done|]. congruence. Qed.

Section Refinement.
Context `{Libs}.

(** [analyze_data] on the store: the same outcome as on the value, the
    profile found in a new dict. *)
Lemma analyze_data_st_refines h df d :
  h !! df = Some (OFrame d) ->
  match analyze_data d with
  | Ok a => exists l,
      (run (analyze_data_st df) h).1 = Ok l ∧
      h !! l = None ∧
      holds_analysis (run (analyze_data_st df) h).2 l a
  | Raise e => (run (analyze_data_st df) h).1 = Raise e
  end.
Proof.
  intros Hdf. unfold analyze_data_st, analyze_data.
  rewrite run_bind, (run_frame_at _ _ _ Hdf).
  rewrite run_bind. cbn [new run].
  set (l1 := fresh (dom h)). pose proof (fresh_unused h) as H1. fold l1 in H1.
  set (h1 := <[l1 := _]> h).
  rewrite run_bind. cbn [new run].
  set (l2 := fresh (dom h1)). pose proof (fresh_unused h1) as H2. fold l2 in H2.
  set (h2 := <[l2 := _]> h1).
  rewrite run_bind. cbn [new run].
  set (l3 := fresh (dom h2)). pose proof (fresh_unused h2) as H3. fold l3 in H3.
  set (h3 := <[l3 := _]> h2).
  rewrite run_bind. cbn [pure run].
  destruct (if (0 <? _)%nat then describe d else Ok []) as [s|e]; [|done].
  rewrite run_bind. cbn [new run].
  set (l4 := fresh (dom h3)). pose proof (fresh_unused h3) as H4. fold l4 in H4.
  set (h4 := <[l4 := _]> h3).
  set (l5 := fresh (dom h4)). pose proof (fresh_unused h4) as H5. fold l5 in H5.
  cbn [mbind result_bind fst snd].
  assert (Hl5 : h !! l5 = None).
  { eapply lookup_weaken_None; [exact H5|].
    subst h4 h3 h2 h1. repeat (apply insert_subseteq_r; [|]); try done.
    - eapply lookup_weaken_None; [exact H4|].
      repeat (apply insert_subseteq_r; [|]); try done.
      + eapply lookup_weaken_None; [exact H3|].
        repeat (apply insert_subseteq_r; [|]); try done.
        eapply lookup_weaken_None; [exact H2|]. by apply insert_subseteq.
      + eapply lookup_weaken_None; [exact H2|]. by apply insert_subseteq.
    - eapply lookup_weaken_None; [exact H3|].
      repeat (apply insert_subseteq_r; [|]); try done.
      eapply lookup_weaken_None; [exact H2|]. by apply insert_subseteq.
    - eapply lookup_weaken_None; [exact H2|]. by apply insert_subseteq. }
  exists l5. split; [done|]. split; [done|].
  exists l1, l2, l3, l4. cbn [total_rows total_columns numeric_columns
    categorical_columns missing_values summary_stats].
  split; [apply lookup_insert_eq|].
  split.
  { apply lookup_insert_fresh; [done|]. apply lookup_insert_fresh; [done|].
    apply lookup_insert_fresh; [done|]. apply lookup_insert_fresh; [done|].
    apply lookup_insert_eq. }
  split.
  { apply lookup_insert_fresh; [done|]. apply lookup_insert_fresh; [done|].
    apply lookup_insert_fresh; [done|]. apply lookup_insert_eq. }
  split.
  { apply lookup_insert_fresh; [done|]. apply lookup_insert_fresh; [done|].
    apply lookup_insert_eq. }
  apply lookup_insert_fresh; [done|]. apply lookup_insert_eq.
Qed.

(** [create_visualizations] on the store: the same outcome, the charts
    found in a new list. *)
Lemma create_visualizations_st_refines h df cols d ns :
  h !! df = Some (OFrame d) ->
  h !! cols = Some (ONames ns) ->
  match create_visualizations d ns with
  | Ok charts => exists l,
      (run (create_visualizations_st df cols) h).1 = Ok l ∧
      h !! l = None ∧
      (run (create_visualizations_st df cols) h).2 !! l = Some (OImages charts)
  | Raise e => (run (create_visualizations_st df cols) h).1 = Raise e
  end.
Proof.
  intros Hdf Hcols. rewrite create_visualizations_cases.
  unfold create_visualizations_st, bar_chart, line_chart.
  rewrite run_bind. cbn [new run].
  set (l := fresh (dom h)). pose proof (fresh_unused h) as Hl. fold l in Hl.
  set (h1 := <[l := _]> h).
  assert (H1 : h1 !! l = Some (OImages [])) by apply lookup_insert_eq.
  rewrite run_bind, (run_frame_at h1 df d) by by apply lookup_insert_fresh.
  rewrite run_bind, (run_names_at h1 cols ns) by by apply lookup_insert_fresh.
  rewrite run_bind.
  destruct ns as [|y1 [|y2 rest]]; cbn [length Nat.ltb Nat.leb getitem lookup].
  - simpl. eauto.
  - simpl. destruct (px_bar _ _ _ _ _) as [fig1|e]; simpl; [|done].
    destruct (to_image fig1 _ _ _) as [img1|e]; simpl; [|done].
    rewrite H1. simpl. exists l. split; [done|]. split; [done|].
    apply lookup_insert_eq.
  - simpl. destruct (px_bar _ _ _ _ _) as [fig1|e]; simpl; [|done].
    destruct (to_image fig1 _ _ _) as [img1|e]; simpl; [|done].
    rewrite H1. simpl.
    destruct (px_line _ _ _ _ _) as [fig2|e]; simpl; [|done].
    destruct (to_image fig2 _ _ _) as [img2|e]; simpl; [|done].
    rewrite lookup_insert_eq. simpl. exists l. split; [done|]. split; [done|].
    apply lookup_insert_eq.
Qed.

(** [generate_pdf_report] on the store: the same outcome, the document
    found in a new buffer. *)
Lemma generate_pdf_report_st_refines h df analysis charts d a cs :
  h !! df = Some (OFrame d) ->
  holds_analysis h analysis a ->
  h !! charts = Some (OImages cs) ->
  match generate_pdf_report d a cs with
  | Ok content => exists l,
      (run (generate_pdf_report_st df analysis charts) h).1 = Ok l ∧
      h !! l = None ∧
      (run (generate_pdf_report_st df analysis charts) h).2 !! l
        = Some (OBuffer content)
  | Raise e => (run (generate_pdf_report_st df analysis charts) h).1 = Raise e
  end.
Proof.
  intros Hdf Ha Hcharts.
  unfold generate_pdf_report_st, generate_pdf_report, report_elements.
  rewrite run_bind. cbn [new run].
  set (b := fresh (dom h)). pose proof (fresh_unused h) as Hb. fold b in Hb.
  set (h1 := <[b := _]> h).
  rewrite run_bind. cbn [new run].
  set (l := fresh (dom h1)). pose proof (fresh_unused h1) as Hl. fold l in Hl.
  set (h2 := <[l := _]> h1).
  assert (Hsub : h ⊆ h2).
  { subst h2 h1. apply insert_subseteq_r.
    - eapply lookup_weaken_None; [exact Hl|]. by apply insert_subseteq.
    - by apply insert_subseteq. }
  assert (Hl0 : h !! l = None).
  { eapply lookup_weaken_None; [exact Hl|]. by apply insert_subseteq. }
  assert (Hbl : b ≠ l).
  { intros Heq. rewrite <- Heq in Hl. subst h1. by rewrite lookup_insert_eq in Hl. }
  rewrite run_bind, (run_analysis_at h2 analysis a)
    by by eapply holds_analysis_mono.
  rewrite run_bind. cbn [pure run].
  destruct title_block as [title|e]; cbn [mbind result_bind]; [|done].
  rewrite run_bind, (run_append_flowables h2 l []) by apply lookup_insert_eq.
  rewrite run_bind. cbn [pure run].
  destruct (summary_block a) as [summary|e]; cbn [mbind result_bind]; [|done].
  rewrite run_bind, (run_append_flowables _ l _) by apply lookup_insert_eq.
  rewrite run_bind. cbn [pure run].
  destruct (column_info_block a) as [info|e]; cbn [mbind result_bind]; [|done].
  rewrite run_bind, (run_append_flowables _ l _) by apply lookup_insert_eq.
  rewrite run_bind. cbn [pure run].
  destruct (stats_block a) as [stats|e]; cbn [mbind result_bind]; [|done].
  rewrite run_bind, (run_append_flowables _ l _) by apply lookup_insert_eq.
  rewrite !insert_insert_eq.
  rewrite run_bind, (run_frame_at _ df d)
    by (rewrite lookup_insert_ne by (intros ?; congruence);
        by eapply lookup_weaken).
  rewrite run_bind. cbn [pure run].
  destruct (preview_block d) as [preview|e]; cbn [mbind result_bind]; [|done].
  rewrite run_bind, (run_append_flowables _ l _) by apply lookup_insert_eq.
  rewrite !insert_insert_eq.
  rewrite run_bind, (run_images_at _ charts cs)
    by (rewrite lookup_insert_ne by (intros ?; congruence);
        by eapply lookup_weaken).
  rewrite run_bind. cbn [pure run].
  destruct (charts_block cs) as [images|e]; cbn [mbind result_bind]; [|done].
  rewrite run_bind, (run_append_flowables _ l _) by apply lookup_insert_eq.
  rewrite !insert_insert_eq.
  rewrite run_bind, (run_story_at _ l _) by apply lookup_insert_eq.
  rewrite run_bind. cbn [pure run].
  rewrite !app_nil_l, <- !app_assoc.
  destruct (doc_build report_doc _) as [content|e]; [|done].
  rewrite run_bind. cbn [write_buffer run].
  rewrite lookup_insert_ne by done. subst h2 h1.
  rewrite lookup_insert_ne by done. rewrite lookup_insert_eq.
  cbn [mret St_ret run fst snd].
  exists b. split; [done|]. split; [done|].
  by rewrite lookup_insert_eq.
Qed.

Lemma run_numeric_columns_ref h l a :
  holds_analysis h l a ->
  exists numeric,
    run (numeric_columns_ref l) h = (Ok numeric, h) ∧
    h !! numeric = Some (ONames (numeric_columns a)).
Proof.
  intros (n & c & m & s & Hl & Hn & _). exists n. split; [|done].
  unfold numeric_columns_ref. rewrite run_bind. cbn [load run]. by rewrite Hl.
Qed.

(** The handler's sequence on the store: the same outcome as [pipeline], the
    document found in a new buffer.  Each stage finds the table where the
    handler put it because the stages before it left it alone. *)
Lemma pipeline_st_refines h df d :
  h !! df = Some (OFrame d) ->
  match pipeline d with
  | Ok content => exists l,
      (run (pipeline_st df) h).1 = Ok l ∧
      (run (pipeline_st df) h).2 !! l = Some (OBuffer content) ∧
      (run (pipeline_st df) h).2 !! df = Some (OFrame d)
  | Raise e => (run (pipeline_st df) h).1 = Raise e
  end.
Proof.
  intros Hdf. unfold pipeline_st, pipeline. rewrite run_bind.
  pose proof (analyze_data_st_refines h df d Hdf) as Han.
  destruct (keeps_analyze_data h df h) as [Hsub1 _]; [done|].
  destruct (run (analyze_data_st df) h) as [r1 h1]. simpl in Han, Hsub1.
  destruct (analyze_data d) as [a|e]; cbn [mbind result_bind];
    [|by rewrite Han].
  destruct Han as (la & -> & _ & Ha).
  assert (Hdf1 : h1 !! df = Some (OFrame d)) by by eapply lookup_weaken.
  destruct (run_numeric_columns_ref h1 la a Ha) as (ln & Hrun & Hln).
  rewrite run_bind, Hrun, run_bind.
  pose proof (create_visualizations_st_refines h1 df ln d _ Hdf1 Hln) as Hcv.
  destruct (keeps_create_visualizations h1 df ln h1) as [Hsub2 _]; [done|].
  destruct (run (create_visualizations_st df ln) h1) as [r2 h2].
  simpl in Hcv, Hsub2.
  destruct (create_visualizations d (numeric_columns a)) as [cs|e];
    cbn [mbind result_bind]; [|by rewrite Hcv].
  destruct Hcv as (lc & -> & _ & Hlc).
  assert (Hdf2 : h2 !! df = Some (OFrame d)) by by eapply lookup_weaken.
  pose proof (holds_analysis_mono h1 h2 la a Hsub2 Ha) as Ha2.
  pose proof (generate_pdf_report_st_refines h2 df la lc d a cs Hdf2 Ha2 Hlc)
    as Hgen.
  destruct (keeps_generate_pdf_report h2 df la lc h2) as [Hsub3 _]; [done|].
  destruct (run (generate_pdf_report_st df la lc) h2) as [r3 h3].
  simpl in Hgen, Hsub3.
  destruct (generate_pdf_report d a cs) as [content|e]; [|done].
  destruct Hgen as (lb & -> & _ & Hlb). exists lb. simpl.
  split; [done|]. split; [done|]. by eapply lookup_weaken.
Qed.

End Refinement.

(** ** The model on the sample tables *)

Example analyze_sales_table :
  analyze_data (H := sample_libs) sales_table
  = Ok {| total_rows := 3;
          total_columns := 3;
          numeric_columns := ["Sales"; "Revenue"];
          categorical_columns := ["Product"];
          missing_values := to_dict [("Product", 0); ("Sales", 0); ("Revenue", 1)]%nat;
          summary_stats := [("Sales", [("count", PFloat 3)]);
                            ("Revenue", [("count", PFloat 3)])] |}.
Proof. reflexivity. Qed.

(** A text column next to numbers: the cells keep their types. *)
Example values_of_sales_table :
  values_tolist sales_table
  = [ [PStr "Laptop"; PInt 10; PFloat 1000.5];
      [PStr "Phone"; PInt 20; PNaN];
      [PStr "Tablet"; PInt 30; PFloat 250] ].
Proof. reflexivity. Qed.

(** Integer and floating columns only: the integers come out as floats. *)
Example values_of_numbers :
  values_tolist {| df_len := 1;
                   df_cols := [column "n" Int64 [PInt 5];
                               column "x" Float64 [PFloat 2.5]] |}
  = [ [PFloat (inject_Z 5); PFloat 2.5] ].
Proof. reflexivity. Qed.

Example charts_of_sales_table :
  create_visualizations (H := sample_libs) sales_table ["Sales"; "Revenue"]
  = Ok [ one_pixel_png; one_pixel_png ].
Proof. reflexivity. Qed.

Example pipeline_of_sales_table :
  is_ok (pipeline (H := sample_libs) sales_table) = true.
Proof. reflexivity. Qed.

Example pipeline_of_text_table :
  is_ok (pipeline (H := sample_libs) text_table) = true.
Proof. reflexivity. Qed.

Example pipeline_of_eleven_rows_table :
  pipeline (H := sample_libs) eleven_rows_table = Raise ValueError.
Proof. reflexivity. Qed.

Example widths_of_sales_table :
  col_widths sales_table = Ok [column_width 3; column_width 3; column_width 3] ∧
  (column_width 3 == 184)%Q.
Proof. by split. Qed.

(** The pipeline on a heap that holds [text_table] at address 1: the table
    is still there afterwards, and the address returned holds the buffer. *)
Example pipeline_st_of_text_table :
  exists l content,
    (run (pipeline_st (H := sample_libs) 1%positive)
       {[ 1%positive := OFrame text_table ]}).1 = Ok l ∧
    (run (pipeline_st (H := sample_libs) 1%positive)
       {[ 1%positive := OFrame text_table ]}).2 !! 1%positive
      = Some (OFrame text_table) ∧
    (run (pipeline_st (H := sample_libs) 1%positive)
       {[ 1%positive := OFrame text_table ]}).2 !! l
      = Some (OBuffer content).
Proof. do 2 eexists. split; [|split]; vm_compute; reflexivity. Qed.

(** The property proved of the stages is not one every statement has: an
    append to a list the caller holds changes the caller's heap. *)
Example append_to_callers_list_is_seen :
  ¬ keeps {[ 1%positive := OImages [] ]} (append_image 1%positive []) (fun _ => True).
Proof.
  intros Hk. destruct (Hk {[ 1%positive := OImages [] ]}) as [Hsub _]; [done|].
  pose proof (lookup_weaken _ _ 1%positive (OImages []) (lookup_singleton_eq _ _) Hsub)
    as Hl.
  vm_compute in Hl. discriminate Hl.
Qed.

(** * Further properties of the pipeline *)

(** ** The Profiler *)

Lemma selected_lengths (cols : list Column) :
  length (filter (fun c => is_number (col_dtype c) = true) cols)
  + length (filter (fun c => is_object (col_dtype c) = true) cols)
  + length (filter (fun c => profiled c = false) cols)
  = length cols.
Proof.
  induction cols as [|c cols IH]; [done|].
  rewrite !filter_cons. unfold profiled in *.
  destruct (col_dtype c); simpl; repeat case_decide; simpl; try done; lia.
Qed.

Lemma filter_nil_Forall (cols : list Column) :
  length (filter (fun c => profiled c = false) cols) = 0%nat <->
  Forall (fun c => profiled c = true) cols.
Proof.
  induction cols as [|c cols IH]; [by split|].
  rewrite filter_cons, Forall_cons.
  destruct (profiled c) eqn:Hc; case_decide; simpl; try done.
  - rewrite IH. split; [by split|by intros [_ ?]].
  - split; [lia|]. by intros [? _].
Qed.

Section ProfilerMore.
Context `{Libs}.

(** X3.  The two name lists of a profile keep the order of the table's
    columns, and their lengths add up to at most the column count shown
    beside them; they add up to it exactly when every column has a numeric
    or the object type. *)
Theorem profile_column_counts df a :
  analyze_data df = Ok a ->
  numeric_columns a `sublist_of` columns df ∧
  categorical_columns a `sublist_of` columns df ∧
  length (numeric_columns a) + length (categorical_columns a) <= total_columns a ∧
  (length (numeric_columns a) + length (categorical_columns a) = total_columns a
   <-> Forall (fun c => profiled c = true) (df_cols df)).
Proof.
  intros Ha. apply analyze_data_fields in Ha as (_ & -> & -> & -> & _).
  unfold columns, select_dtypes. simpl. rewrite !length_fmap.
  pose proof (selected_lengths (df_cols df)) as Hlen.
  split; [apply fmap_sublist, sublist_filter|].
  split; [apply fmap_sublist, sublist_filter|].
  split; [lia|]. rewrite <- filter_nil_Forall. lia.
Qed.

End ProfilerMore.

Lemma profile_column_counts_witness :
  exists a, analyze_data (H := sample_libs) sales_table = Ok a ∧
    numeric_columns a `sublist_of` columns sales_table ∧
    categorical_columns a `sublist_of` columns sales_table ∧
    length (numeric_columns a) + length (categorical_columns a) <= total_columns a ∧
    (length (numeric_columns a) + length (categorical_columns a) = total_columns a
     <-> Forall (fun c => profiled c = true) (df_cols sales_table)).
Proof.
  eexists. split; [reflexivity|].
  apply (profile_column_counts (H := sample_libs) sales_table). reflexivity.
Defined.

Lemma foldl_insert_is_Some (items : list (string * nat)) (m : gmap string nat) k :
  is_Some (foldl (fun m kv => <[kv.1 := kv.2]> m) m items !! k)
  <-> is_Some (m !! k) ∨ k ∈ items.*1.
Proof.
  revert m. induction items as [|[k' v'] items IH]; intros m; simpl.
  - rewrite elem_of_nil. split; [by left|by intros [?|?]].
  - rewrite IH, elem_of_cons. simpl.
    destruct (decide (k' = k)) as [->|Hne].
    + rewrite lookup_insert_eq. split; [by right; left|by left].
    + rewrite lookup_insert_ne by done. split.
      * intros [?|?]; [by left|by right; right].
      * intros [?|[?|?]]; [by left|congruence|by right].
Qed.

Section MissingValues.
Context `{Libs}.

(** X4.  Whatever the column names (they may repeat), the missing-value
    mapping has an entry exactly for the names of the table's columns, and
    the entry under a name is the null count of the last column that carries
    the name: a column whose name comes again further right is not counted. *)
Theorem missing_values_last_column df a :
  analyze_data df = Ok a ->
  (forall name, is_Some (missing_values a !! name) <-> name ∈ columns df) ∧
  (forall before c after,
      df_cols df = (before ++ c :: after)%list ->
      col_name c ∉ col_name <$> after ->
      missing_values a !! col_name c = Some (count_null c)).
Proof.
  intros Ha. apply analyze_data_fields in Ha as (_ & _ & _ & _ & ->).
  unfold to_dict. split.
  - intros name. rewrite foldl_insert_is_Some, isnull_sum_keys, lookup_empty.
    split; [by intros [[? ?]|?]|by right].
  - intros before c after Hcols Hlast. unfold isnull_sum. rewrite Hcols.
    rewrite fmap_app, fmap_cons, foldl_app. simpl.
    rewrite foldl_insert_absent; [apply lookup_insert_eq|].
    rewrite <- list_fmap_compose. exact Hlast.
Qed.

End MissingValues.

Lemma missing_values_last_column_witness :
  exists a,
    analyze_data (H := sample_libs) repeated_name_table = Ok a ∧
    missing_values a !! "x" = Some 0%nat.
Proof.
  eexists. split; [reflexivity|].
  apply (proj2 (missing_values_last_column (H := sample_libs)
                  repeated_name_table _ eq_refl)
           [column "x" Float64 [PNaN]] (column "x" Float64 [PFloat 1]) []).
  - reflexivity.
  - apply not_elem_of_nil.
Defined.

(** ** The Report Composer: when it returns, and what the story holds *)

Lemma comprehension_ok {A B} (f : A -> result B) (g : A -> B) xs :
  Forall (fun x => f x = Ok (g x)) xs -> comprehension f xs = Ok (g <$> xs).
Proof.
  induction 1 as [|x xs Hx _ IH]; simpl; [done|]. by rewrite Hx, IH.
Qed.

Lemma table_styles_app els1 els2 :
  table_styles (els1 ++ els2) = (table_styles els1 ++ table_styles els2)%list.
Proof. apply omap_app. Qed.

Lemma image_sources_app els1 els2 :
  image_sources (els1 ++ els2) = (image_sources els1 ++ image_sources els2)%list.
Proof. apply omap_app. Qed.

Lemma page_breaks_app els1 els2 :
  page_breaks (els1 ++ els2) = (page_breaks els1 + page_breaks els2)%nat.
Proof. unfold page_breaks. by rewrite omap_app, length_app. Qed.

Lemma paragraph_shape text style els :
  table_styles (Paragraph text style :: els) = table_styles els ∧
  image_sources (Paragraph text style :: els) = image_sources els ∧
  page_breaks (Paragraph text style :: els) = page_breaks els.
Proof. done. Qed.

Lemma page_break_shape els :
  table_styles (PageBreak :: els) = table_styles els ∧
  image_sources (PageBreak :: els) = image_sources els ∧
  page_breaks (PageBreak :: els) = S (page_breaks els).
Proof. done. Qed.

Lemma chart_flowables_shape charts :
  table_styles (concat (chart_flowables <$> charts)) = [] ∧
  image_sources (concat (chart_flowables <$> charts)) = charts ∧
  page_breaks (concat (chart_flowables <$> charts)) = 0%nat.
Proof.
  induction charts as [|c cs (IHt & IHi & IHp)]; [done|].
  rewrite fmap_cons. cbn [concat].
  rewrite table_styles_app, image_sources_app, page_breaks_app, IHt, IHi, IHp.
  done.
Qed.

Section Story.
Context `{Libs}.

Lemma stats_entry_flowables_shape entries :
  table_styles (concat (stats_entry_flowables <$> entries))
  = replicate (length entries) stats_table_style ∧
  image_sources (concat (stats_entry_flowables <$> entries)) = [] ∧
  page_breaks (concat (stats_entry_flowables <$> entries)) = 0%nat.
Proof.
  induction entries as [|entry entries (IHt & IHi & IHp)]; [done|].
  rewrite fmap_cons. cbn [concat].
  rewrite table_styles_app, image_sources_app, page_breaks_app, IHt, IHi, IHp.
  done.
Qed.

Lemma title_block_shape els :
  title_block = Ok els ->
  table_styles els = [] ∧ image_sources els = [] ∧ page_breaks els = 0%nat.
Proof.
  rewrite title_block_value. destruct (_ && _); [|done]. by intros [= <-].
Qed.

Lemma summary_block_shape analysis els :
  summary_block analysis = Ok els ->
  table_styles els = [summary_table_style] ∧ image_sources els = [] ∧
  page_breaks els = 0%nat.
Proof.
  rewrite summary_block_value. destruct (para_parses _); [|done]. by intros [= <-].
Qed.

Lemma column_info_block_shape analysis els :
  column_info_block analysis = Ok els ->
  table_styles els = [] ∧ image_sources els = [] ∧ page_breaks els = 0%nat.
Proof.
  rewrite column_info_block_value. destruct (_ && _); [|done]. by intros [= <-].
Qed.

Lemma stats_block_shape analysis els :
  stats_block analysis = Ok els ->
  table_styles els
  = replicate (3 `min` length (summary_stats analysis)) stats_table_style ∧
  image_sources els = [] ∧ page_breaks els = 0%nat.
Proof.
  rewrite stats_block_value. destruct (truthy (summary_stats analysis)) eqn:Hs.
  - destruct (_ && _); [|done]. intros [= <-].
    destruct (stats_entry_flowables_shape (take 3 (summary_stats analysis)))
      as (Ht & Hi & Hp).
    destruct (paragraph_shape "Statistical Summary" heading_style
                (concat (stats_entry_flowables <$> take 3 (summary_stats analysis))))
      as (Ht' & Hi' & Hp').
    unfold stats_heading.
    by rewrite Ht', Hi', Hp', Ht, Hi, Hp, length_take.
  - intros [= <-]. by destruct (summary_stats analysis).
Qed.

Lemma preview_block_shape df els :
  preview_block df = Ok els ->
  table_styles els = [preview_table_style] ∧ image_sources els = [] ∧
  page_breaks els = 1%nat.
Proof.
  rewrite preview_block_value. destruct (_ && _); [|done]. by intros [= <-].
Qed.

Lemma charts_block_shape charts els :
  charts_block charts = Ok els ->
  table_styles els = [] ∧ image_sources els = charts ∧
  page_breaks els = (if truthy charts then 1 else 0)%nat.
Proof.
  intros Hc. apply charts_block_Ok in Hc as ->.
  destruct (truthy charts) eqn:Hcharts; [|by destruct charts].
  destruct (chart_flowables_shape charts) as (Ht & Hi & Hp).
  destruct (page_break_shape (charts_heading :: concat (chart_flowables <$> charts)))
    as (Ht1 & Hi1 & Hp1).
  destruct (paragraph_shape "Data Visualizations" heading_style
              (concat (chart_flowables <$> charts)))
    as (Ht2 & Hi2 & Hp2).
  rewrite Ht1, Hi1, Hp1. unfold charts_heading.
  by rewrite Ht2, Hi2, Hp2, Ht, Hi, Hp.
Qed.



(** X6.  In a story the composer builds, the tables are, in this order, the
    summary table, one statistics table for each of the first three entries
    of the profile's statistics (fewer when there are fewer), and the
    preview table; there is no other table. *)
Theorem story_tables df analysis charts els :
  report_elements df analysis charts = Ok els ->
  table_styles els
  = (summary_table_style
     :: replicate (3 `min` length (summary_stats analysis)) stats_table_style
     ++ [preview_table_style])%list.
Proof.
  intros Hel.
  apply report_elements_inv in Hel
    as (title & summary & info & stats & preview & images
        & Ht & Hs & Hi & Hst & Hp & Hc & ->).
  apply title_block_shape in Ht as (Ht & _).
  apply summary_block_shape in Hs as (Hs & _).
  apply column_info_block_shape in Hi as (Hi & _).
  apply stats_block_shape in Hst as (Hst & _).
  apply preview_block_shape in Hp as (Hp & _).
  apply charts_block_shape in Hc as (Hc & _).
  rewrite !table_styles_app, Ht, Hs, Hi, Hst, Hp, Hc.
  by rewrite app_nil_r.
Qed.

(** X7.  In a story the composer builds, the images are the charts it was
    given, each once and in their order, and the story has one page break
    (before the preview) when there is no chart and two (the second before
    the charts) when there is one. *)
Theorem story_images df analysis charts els :
  report_elements df analysis charts = Ok els ->
  image_sources els = charts ∧
  page_breaks els = (if truthy charts then 2 else 1)%nat.
Proof.
  intros Hel.
  apply report_elements_inv in Hel
    as (title & summary & info & stats & preview & images
        & Ht & Hs & Hi & Hst & Hp & Hc & ->).
  apply title_block_shape in Ht as (_ & Hti & Htp).
  apply summary_block_shape in Hs as (_ & Hsi & Hsp).
  apply column_info_block_shape in Hi as (_ & Hii & Hip).
  apply stats_block_shape in Hst as (_ & Hsti & Hstp).
  apply preview_block_shape in Hp as (_ & Hpi & Hpp).
  apply charts_block_shape in Hc as (_ & Hci & Hcp).
  rewrite !image_sources_app, !page_breaks_app, Hti, Htp, Hsi, Hsp, Hii, Hip,
    Hsti, Hstp, Hpi, Hpp, Hci, Hcp.
  split; [done|]. by destruct (truthy charts).
Qed.

End Story.

Lemma story_tables_witness :
  exists els,
    report_elements (H := sample_libs) sales_table sales_profile two_charts
      = Ok els ∧
    table_styles els
    = [summary_table_style; stats_table_style; stats_table_style;
       preview_table_style].
Proof.
  eexists. split; [reflexivity|].
  apply (story_tables (H := sample_libs) sales_table sales_profile two_charts).
  reflexivity.
Defined.

Lemma story_images_witness :
  exists els,
    report_elements (H := sample_libs) sales_table sales_profile two_charts
      = Ok els ∧
    image_sources els = two_charts ∧ page_breaks els = 2%nat.
Proof.
  eexists. split; [reflexivity|].
  apply (story_images (H := sample_libs) sales_table sales_profile two_charts).
  reflexivity.
Defined.

(** ** The Report Composer: shape of the preview table *)

Lemma column_width_sign n :
  (1 <= n)%nat ->
  ((0 < column_width n)%Q <-> (n <= 30)%nat) ∧
  ((column_width n < 0)%Q <-> (31 <= n)%nat).
Proof.
  intros Hn. destruct n as [|n]; [lia|].
  unfold column_width, Qlt, Qminus, Qplus, Qdiv, Qmult, Qinv, Qopp, inject_Z.
  simpl. rewrite ?Pos.mul_1_r, ?Zpos_P_of_succ_nat. lia.
Qed.

Section PreviewShape.
Context `{Libs}.

Lemma truncate_cell_length cell : len (truncate_cell cell) <= 23.
Proof.
  unfold truncate_cell. destruct (20 <? _)%nat eqn:Hlong.
  - apply Nat.ltb_lt in Hlong.
    rewrite len_app, len_slice_to by lia. simpl. lia.
  - apply Nat.ltb_ge in Hlong. lia.
Qed.

(** X8.  The preview table is rectangular and narrow-celled: every row of
    it, the header included, has one cell per column of the table, no cell
    is longer than 23 characters (characters as Python's [len] counts them,
    whatever their number of bytes), and the width list has one width per
    column. *)
Theorem preview_table_shape df :
  Forall (fun row => length row = length (columns df)) (preview_data df) ∧
  Forall (Forall (fun cell => len cell <= 23)) (preview_data df) ∧
  exists widths, col_widths df = Ok widths ∧ length widths = length (columns df).
Proof.
  rewrite preview_data_take. split; [|split].
  - constructor; [by rewrite !length_fmap|].
    apply Forall_fmap, Forall_take. unfold values_tolist.
    apply Forall_fmap, Forall_true. intros i. simpl.
    unfold row_at, columns. by rewrite !length_fmap.
  - constructor.
    + apply Forall_fmap, Forall_true. intros cell. apply truncate_cell_length.
    + apply Forall_fmap, Forall_true. intros row.
      apply Forall_fmap, Forall_true. intros cell. apply truncate_cell_length.
  - eexists. split; [apply col_widths_value|]. apply length_replicate.
Qed.

End PreviewShape.

(** X9.  With 1 to 30 columns every preview column gets a positive width;
    from 31 columns on the width the composer computes is negative. *)
Theorem preview_width_sign df :
  (1 <= length (columns df))%nat ->
  exists w,
    col_widths df = Ok (replicate (length (columns df)) w) ∧
    ((0 < w)%Q <-> (length (columns df) <= 30)%nat) ∧
    ((w < 0)%Q <-> (31 <= length (columns df))%nat).
Proof.
  intros HC. exists (column_width (length (columns df))).
  split; [apply col_widths_value|]. by apply column_width_sign.
Qed.

Lemma preview_width_sign_witness :
  exists w,
    col_widths sales_table = Ok (replicate 3 w) ∧
    ((0 < w)%Q <-> (3 <= 30)%nat) ∧ ((w < 0)%Q <-> (31 <= 3)%nat).
Proof. apply (preview_width_sign sales_table). simpl. lia. Defined.

(** * The upload handler *)

Lemma shown_bind {F A B} (m : Ui F A) (f : A -> Ui F B) :
  shown (m ≫= f)
  = (shown m ++ match outcome m with Ok a => shown (f a) | Raise _ => [] end)%list.
Proof.
  unfold mbind, Ui_bind. destruct (outcome m); simpl; [done|].
  by rewrite app_nil_r.
Qed.

Lemma outcome_bind {F A B} (m : Ui F A) (f : A -> Ui F B) :
  outcome (m ≫= f)
  = match outcome m with Ok a => outcome (f a) | Raise e => Raise e end.
Proof. unfold mbind, Ui_bind. by destruct (outcome m). Qed.

Lemma sum_list_zero (ns : list nat) :
  sum_list ns = 0%nat <-> Forall (fun n => n = 0%nat) ns.
Proof.
  induction ns as [|n ns IH]; simpl; [by split|].
  rewrite Forall_cons, <- IH. lia.
Qed.

Section HandlerFacts.
Context `{PageLibs}.

Lemma overview_plain df : Forall plain (shown (overview df)).
Proof. unfold overview. repeat (rewrite shown_bind; simpl). repeat constructor. Qed.

Lemma overview_outcome df : outcome (overview df) = Ok tt.
Proof. reflexivity. Qed.

Lemma statistics_tab_plain df analysis :
  Forall plain (shown (statistics_tab df analysis)).
Proof.
  unfold statistics_tab. destruct (truthy _); [|by repeat constructor].
  rewrite !shown_bind. simpl.
  destruct (getitem_columns _ _) as [numeric|]; simpl; [|by repeat constructor].
  destruct (describe numeric); simpl; by repeat constructor.
Qed.

Lemma histograms_plain df cols :
  Forall plain (shown (for_each (histogram df) cols)).
Proof.
  induction cols as [|col cols IH]; [constructor|].
  cbn [for_each]. rewrite shown_bind. apply Forall_app. split.
  - unfold histogram. rewrite shown_bind. simpl.
    destruct (px_histogram _ _ _ _); simpl; by repeat constructor.
  - destruct (outcome (histogram df col)); [done|constructor].
Qed.

Lemma visualizations_tab_plain df analysis :
  Forall plain (shown (visualizations_tab df analysis)).
Proof.
  unfold visualizations_tab. destruct (truthy _); [|by repeat constructor].
  apply histograms_plain.
Qed.

Lemma missing_tab_plain analysis : Forall plain (shown (missing_tab analysis)).
Proof. unfold missing_tab. destruct (0 <? _)%nat; by repeat constructor. Qed.

Lemma missing_tab_outcome analysis : outcome (missing_tab analysis) = Ok tt.
Proof. unfold missing_tab. by destruct (0 <? _)%nat. Qed.

(** The report section: its widgets and its outcome, by cases. *)
Lemma report_section_not_clicked df analysis :
  report_section df analysis false
  = MkUi [ StMarkdown "---"; StColumns [1; 2; 1]%nat;
           StButton "🎯 Generate PDF Report" ] (Ok tt).
Proof. reflexivity. Qed.

Lemma report_section_clicked df analysis :
  report_section df analysis true
  = match charts ← create_visualizations df (numeric_columns analysis);
          generate_pdf_report df analysis charts with
    | Ok pdf_buffer =>
        MkUi [ StMarkdown "---"; StColumns [1; 2; 1]%nat;
               StButton "🎯 Generate PDF Report";
               StSpinner "🎨 Creating your professional report...";
               StSuccess "✅ Report generated successfully!";
               StDownloadButton "📥 Download PDF Report" pdf_buffer
                 ("report_" +:+ file_stamp +:+ ".pdf") "application/pdf" ]
          (Ok tt)
    | Raise e =>
        MkUi [ StMarkdown "---"; StColumns [1; 2; 1]%nat;
               StButton "🎯 Generate PDF Report";
               StSpinner "🎨 Creating your professional report..." ]
          (Raise e)
    end.
Proof.
  unfold report_section, show, eval.
  destruct (create_visualizations _ _) as [charts|e];
    cbn [mbind Ui_bind result_bind outcome shown app]; [|done].
  by destruct (generate_pdf_report _ _ _).
Qed.


(** A download button in the report section: the button was clicked, charts
    and document were made, the section ended normally. *)
Lemma report_section_download df analysis clicked w :
  w ∈ shown (report_section df analysis clicked) -> is_download w = true ->
  clicked = true ∧
  outcome (report_section df analysis clicked) = Ok tt ∧
  exists charts data,
    create_visualizations df (numeric_columns analysis) = Ok charts ∧
    generate_pdf_report df analysis charts = Ok data ∧
    w = StDownloadButton "📥 Download PDF Report" data
          ("report_" +:+ file_stamp +:+ ".pdf") "application/pdf".
Proof.
  destruct clicked.
  - rewrite report_section_clicked.
    destruct (create_visualizations _ _) as [charts|e] eqn:Hc; simpl.
    + destruct (generate_pdf_report _ _ _) as [data|e] eqn:Hg; simpl.
      * intros Hw Hd. split; [done|]. split; [done|]. exists charts, data.
        split; [done|]. split; [done|].
        repeat (apply elem_of_cons in Hw as [->|Hw]; [try discriminate Hd|]);
          [done|by apply elem_of_nil in Hw].
      * intros Hw Hd.
        repeat (apply elem_of_cons in Hw as [->|Hw]; [discriminate Hd|]).
        by apply elem_of_nil in Hw.
    + intros Hw Hd.
      repeat (apply elem_of_cons in Hw as [->|Hw]; [discriminate Hd|]).
      by apply elem_of_nil in Hw.
  - rewrite report_section_not_clicked. simpl. intros Hw Hd.
    repeat (apply elem_of_cons in Hw as [->|Hw]; [discriminate Hd|]).
    by apply elem_of_nil in Hw.
Qed.

End HandlerFacts.

Section HandlerPage.
Context `{PageLibs}.

Lemma bind_download {A B} (m : Ui Figure A) (f : A -> Ui Figure B) w :
  Forall plain (shown m) ->
  w ∈ shown (m ≫= f) -> is_download w = true ->
  exists a, outcome m = Ok a ∧ w ∈ shown (f a) ∧
            outcome (m ≫= f) = outcome (f a).
Proof.
  intros Hm Hw Hd. rewrite shown_bind in Hw. rewrite outcome_bind.
  apply elem_of_app in Hw as [Hw|Hw].
  - rewrite Forall_forall in Hm. destruct (Hm w Hw) as [Hno _]. congruence.
  - destruct (outcome m) as [a|e]; [by exists a|by apply elem_of_nil in Hw].
Qed.



Lemma show_plain (w : widget Figure) : plain w -> Forall plain (shown (show w)).
Proof. intros Hw. unfold show. simpl. apply Forall_cons_2; [done|constructor]. Qed.

Lemma eval_plain {A} (r : result A) : Forall plain (shown (eval (F := Figure) r)).
Proof. constructor. Qed.


(** A download button made by the [try] is made by the report section, for
    the table read from the upload and its profile, and then the [try] ends
    as the report section does. *)
Lemma try_block_download f clicked w :
  w ∈ shown (try_block f clicked) -> is_download w = true ->
  exists df analysis,
    read_upload f = Ok df ∧ analyze_data df = Ok analysis ∧
    w ∈ shown (report_section df analysis clicked) ∧
    outcome (try_block f clicked) = outcome (report_section df analysis clicked).
Proof.
  intros Hw Hd. unfold try_block in *.
  apply bind_download in Hw as (df & Hread & Hw & ->); [|apply eval_plain|done].
  apply bind_download in Hw as (_ & _ & Hw & ->); [|apply overview_plain|done].
  apply bind_download in Hw as (_ & _ & Hw & ->); [|by apply show_plain|done].
  apply bind_download in Hw as (analysis & Ha & Hw & ->); [|apply eval_plain|done].
  apply bind_download in Hw as (_ & _ & Hw & ->); [|by apply show_plain|done].
  apply bind_download in Hw as (_ & _ & Hw & ->); [|by apply show_plain|done].
  apply bind_download in Hw as (_ & _ & Hw & ->);
    [|apply statistics_tab_plain|done].
  apply bind_download in Hw as (_ & _ & Hw & ->);
    [|apply visualizations_tab_plain|done].
  apply bind_download in Hw as (_ & _ & Hw & ->); [|apply missing_tab_plain|done].
  by exists df, analysis.
Qed.

Lemma handler_download f clicked w :
  w ∈ handler (Some f) clicked -> is_download w = true ->
  w ∈ shown (try_block f clicked).
Proof.
  unfold handler. destruct (outcome (try_block f clicked)); [done|].
  intros Hw Hd. apply elem_of_app in Hw as [?|Hw]; [done|].
  unfold except_block in Hw.
  repeat (apply elem_of_cons in Hw as [->|Hw]; [discriminate Hd|]).
  by apply elem_of_nil in Hw.
Qed.

(** X10.  A download button is on the page only after a click on the
    report button, and what it offers is the document the pipeline yields
    for the table read from the uploaded file, as application/pdf under the
    name report_<timestamp>.pdf. *)
Theorem download_is_the_report f clicked w :
  w ∈ handler (Some f) clicked -> is_download w = true ->
  clicked = true ∧
  exists df data,
    read_upload f = Ok df ∧ pipeline df = Ok data ∧
    w = StDownloadButton "📥 Download PDF Report" data
          ("report_" +:+ file_stamp +:+ ".pdf") "application/pdf".
Proof.
  intros Hw Hd. apply handler_download in Hw; [|done].
  apply try_block_download in Hw as (df & a & Hread & Ha & Hw & _); [|done].
  apply report_section_download in Hw
    as (Hclick & _ & charts & data & Hc & Hg & ->); [|done].
  split; [done|]. exists df, data. split; [done|]. split; [|done].
  unfold pipeline. rewrite Ha. simpl. rewrite Hc. simpl. exact Hg.
Qed.


End HandlerPage.

Lemma download_is_the_report_witness :
  true = true ∧
  exists df data,
    read_upload (H0 := sample_page_libs) csv_upload = Ok df ∧
    pipeline (H := sample_libs) df = Ok data ∧
    StDownloadButton (F := @Figure sample_libs) "📥 Download PDF Report"
      [Byte.x25; Byte.x50; Byte.x44; Byte.x46]
      "report_20240101_120000.pdf" "application/pdf"
    = StDownloadButton "📥 Download PDF Report" data
        ("report_" +:+ file_stamp (PageLibs := sample_page_libs) +:+ ".pdf")
        "application/pdf".
Proof.
  apply (download_is_the_report (H0 := sample_page_libs) csv_upload true).
  - vm_compute.
    repeat first [apply list_elem_of_here | apply list_elem_of_further].
  - reflexivity.
Defined.

(** ** The pipeline: what a returned document implies *)

Section PipelineNeeds.
Context `{Libs}.

Lemma pipeline_inv df out :
  pipeline df = Ok out ->
  exists analysis charts,
    analyze_data df = Ok analysis ∧
    create_visualizations df (numeric_columns analysis) = Ok charts ∧
    generate_pdf_report df analysis charts = Ok out.
Proof.
  unfold pipeline. destruct (analyze_data df) as [a|]; simpl; [|done].
  destruct (create_visualizations df (numeric_columns a)) as [cs|] eqn:Hc;
    simpl; [|done].
  intros Hg. by exists a, cs.
Qed.

Lemma charts_need_short_table df numeric_cols charts :
  create_visualizations df numeric_cols = Ok charts ->
  numeric_cols = [] ∨ df_len df <= 10.
Proof.
  destruct numeric_cols as [|y rest]; [by left|]. intros Hc. right.
  destruct (decide (df_len df <= 10)) as [|Hlong]; [done|].
  unfold create_visualizations, px_bar in Hc. simpl in Hc.
  rewrite bar_args_rejected in Hc by lia. done.
Qed.

(** X12.  When the pipeline returns a document, the table has at least one
    column, and it has no numeric column or at most ten rows: for a longer
    table with a numeric column the pipeline ends in an exception. *)
Theorem pipeline_returns_only_if df out :
  pipeline df = Ok out ->
  df_cols df ≠ [] ∧
  (columns (select_dtypes is_number df) = [] ∨ df_len df <= 10).
Proof.
  intros Hp. apply pipeline_inv in Hp as (a & cs & Ha & Hc & Hg). split.
  - intros Hnone. by rewrite generate_pdf_report_no_columns in Hg.
  - apply analyze_data_fields in Ha as (_ & _ & Hn & _). rewrite <- Hn.
    by eapply charts_need_short_table.
Qed.

End PipelineNeeds.

Lemma pipeline_returns_only_if_witness :
  df_cols sales_table ≠ [] ∧
  (columns (select_dtypes is_number sales_table) = [] ∨ df_len sales_table <= 10).
Proof.
  destruct (pipeline (H := sample_libs) sales_table) as [out|] eqn:Hp;
    [|discriminate Hp].
  exact (pipeline_returns_only_if (H := sample_libs) sales_table out Hp).
Defined.

(** ** The handler: long tables, the missing-values tab, the histograms *)

Lemma to_dict_lookup_iff items k v :
  NoDup items.*1 -> to_dict items !! k = Some v <-> (k, v) ∈ items.
Proof.
  intros Hnd. split; [|by apply to_dict_lookup].
  intros Hk. assert (Hin : k ∈ items.*1).
  { assert (Hs : is_Some (to_dict items !! k)) by by rewrite Hk.
    unfold to_dict in Hs. apply foldl_insert_is_Some in Hs as [Hs|Hs]; [|done].
    rewrite lookup_empty in Hs. by destruct Hs. }
  apply list_elem_of_fmap in Hin as ([k' v'] & -> & Hin). simpl in *.
  rewrite (to_dict_lookup _ _ _ Hnd Hin) in Hk. by injection Hk as ->.
Qed.

Lemma isnull_total_zero df :
  isnull_total df = 0%nat <-> Forall (fun c => count_null c = 0%nat) (df_cols df).
Proof. unfold isnull_total. by rewrite sum_list_zero, Forall_fmap. Qed.

Section HandlerTabs.
Context `{PageLibs}.

Lemma bind_select {A B} (p : widget Figure -> bool) (m : Ui Figure A)
    (f : A -> Ui Figure B) w :
  Forall (fun w => p w = false) (shown m) ->
  w ∈ shown (m ≫= f) -> p w = true ->
  exists a, outcome m = Ok a ∧ w ∈ shown (f a).
Proof.
  intros Hm Hw Hp. rewrite shown_bind in Hw.
  apply elem_of_app in Hw as [Hw|Hw].
  - rewrite Forall_forall in Hm. specialize (Hm w Hw). congruence.
  - destruct (outcome m) as [a|e]; [by exists a|by apply elem_of_nil in Hw].
Qed.

Lemma try_block_ok f clicked u :
  outcome (try_block f clicked) = Ok u ->
  exists df analysis,
    read_upload f = Ok df ∧ analyze_data df = Ok analysis ∧
    outcome (report_section df analysis clicked) = Ok tt.
Proof.
  unfold try_block. rewrite outcome_bind. cbn [eval outcome].
  destruct (read_upload f) as [df|]; [|done].
  rewrite outcome_bind, overview_outcome.
  rewrite outcome_bind. cbn [show outcome].
  rewrite outcome_bind. cbn [eval outcome].
  destruct (analyze_data df) as [a|] eqn:Ha; [|done].
  rewrite outcome_bind. cbn [show outcome].
  rewrite outcome_bind. cbn [show outcome].
  rewrite outcome_bind.
  destruct (outcome (statistics_tab df a)); [|done].
  rewrite outcome_bind.
  destruct (outcome (visualizations_tab df a)); [|done].
  rewrite outcome_bind, missing_tab_outcome.
  destruct (outcome (report_section df a clicked)) as [[]|] eqn:Hr; [|done].
  intros _. by exists df, a.
Qed.

(** X13.  For an uploaded table of more than ten rows with a numeric
    column, no run of the handler offers a download, and a run in which the
    report button was clicked shows the error message. *)
Theorem long_table_never_downloads f df clicked :
  read_upload f = Ok df ->
  10 < df_len df ->
  columns (select_dtypes is_number df) ≠ [] ->
  Forall (fun w => is_download w = false) (handler (Some f) clicked) ∧
  (clicked = true ->
   Exists (fun w => is_error w = true) (handler (Some f) clicked)).
Proof.
  intros Hread Hlong Hnum.
  assert (Hcharts : forall a cs, analyze_data df = Ok a ->
            create_visualizations df (numeric_columns a) = Ok cs -> False).
  { intros a cs Ha Hc. apply analyze_data_fields in Ha as (_ & _ & Hn & _).
    apply charts_need_short_table in Hc as [Hc|Hc]; [congruence|lia]. }
  split.
  - apply Forall_forall. intros w Hw.
    destruct (is_download w) eqn:Hd; [exfalso|done].
    apply handler_download in Hw; [|done].
    apply try_block_download in Hw as (df' & a & Hread' & Ha & Hw & _); [|done].
    assert (df' = df) as -> by congruence.
    apply report_section_download in Hw as (_ & _ & cs & data & Hc & _); [|done].
    by eapply Hcharts.
  - intros ->. unfold handler.
    destruct (outcome (try_block f true)) as [u|e] eqn:Hout.
    + exfalso. apply try_block_ok in Hout as (df' & a & Hread' & Ha & Hok).
      assert (df' = df) as -> by congruence.
      rewrite report_section_clicked in Hok.
      destruct (create_visualizations df (numeric_columns a)) as [cs|] eqn:Hc;
        [by eapply Hcharts|done].
    + apply Exists_app. right. unfold except_block. by constructor.
Qed.

Lemma report_section_no_missing_report df analysis clicked :
  Forall (fun w => is_missing_report w = false)
    (shown (report_section df analysis clicked)).
Proof.
  destruct clicked.
  - rewrite report_section_clicked. destruct (_ ≫= _); simpl; by repeat constructor.
  - rewrite report_section_not_clicked. by repeat constructor.
Qed.

Lemma overview_no_missing_report df :
  Forall (fun w => is_missing_report w = false) (shown (overview df)).
Proof.
  unfold overview. repeat (rewrite shown_bind; simpl). by repeat constructor.
Qed.

Lemma statistics_tab_no_missing_report df analysis :
  Forall (fun w => is_missing_report w = false) (shown (statistics_tab df analysis)).
Proof.
  unfold statistics_tab. destruct (truthy _); [|by repeat constructor].
  rewrite !shown_bind. simpl.
  destruct (getitem_columns _ _) as [numeric|]; simpl; [|by repeat constructor].
  destruct (describe numeric); simpl; by repeat constructor.
Qed.

Lemma visualizations_tab_no_missing_report df analysis :
  Forall (fun w => is_missing_report w = false)
    (shown (visualizations_tab df analysis)).
Proof.
  unfold visualizations_tab. destruct (truthy _); [|by repeat constructor].
  induction (take 2 (numeric_columns analysis)) as [|col cols IH]; [constructor|].
  cbn [for_each]. rewrite shown_bind. apply Forall_app. split.
  - unfold histogram. rewrite shown_bind. simpl.
    destruct (px_histogram _ _ _ _); simpl; by repeat constructor.
  - destruct (outcome (histogram df col)); [done|constructor].
Qed.

Lemma handler_missing_report f clicked w :
  w ∈ handler (Some f) clicked -> is_missing_report w = true ->
  exists df analysis,
    read_upload f = Ok df ∧ analyze_data df = Ok analysis ∧
    w ∈ shown (missing_tab analysis).
Proof.
  intros Hw Hm.
  assert (Hw' : w ∈ shown (try_block f clicked)).
  { unfold handler in Hw. destruct (outcome (try_block f clicked)); [done|].
    apply elem_of_app in Hw as [?|Hw]; [done|]. unfold except_block in Hw.
    repeat (apply elem_of_cons in Hw as [->|Hw]; [discriminate Hm|]).
    by apply elem_of_nil in Hw. }
  clear Hw. unfold try_block in Hw'.
  apply (bind_select is_missing_report) in Hw' as (df & Hread & Hw);
    [|constructor|done].
  apply (bind_select is_missing_report) in Hw as (_ & _ & Hw);
    [|apply overview_no_missing_report|done].
  apply (bind_select is_missing_report) in Hw as (_ & _ & Hw);
    [|by repeat constructor|done].
  apply (bind_select is_missing_report) in Hw as (a & Ha & Hw);
    [|constructor|done].
  apply (bind_select is_missing_report) in Hw as (_ & _ & Hw);
    [|by repeat constructor|done].
  apply (bind_select is_missing_report) in Hw as (_ & _ & Hw);
    [|by repeat constructor|done].
  apply (bind_select is_missing_report) in Hw as (_ & _ & Hw);
    [|apply statistics_tab_no_missing_report|done].
  apply (bind_select is_missing_report) in Hw as (_ & _ & Hw);
    [|apply visualizations_tab_no_missing_report|done].
  exists df, a. split; [done|]. split; [done|].
  rewrite shown_bind in Hw. apply elem_of_app in Hw as [?|Hw]; [done|].
  rewrite missing_tab_outcome in Hw.
  pose proof (report_section_no_missing_report df a clicked) as Hno.
  rewrite Forall_forall in Hno. specialize (Hno w Hw). congruence.
Qed.

(** X14.  For an upload read as a table with unique column names, the
    missing-values tab agrees with the count in the quick statistics: it
    shows "No missing values found!" only when the table has no null cell,
    and otherwise a table that lists exactly the columns with a null cell,
    each with the number of its null cells. *)
Theorem missing_tab_matches_table f df clicked w :
  read_upload f = Ok df ->
  NoDup (columns df) ->
  w ∈ handler (Some f) clicked -> is_missing_report w = true ->
  (w = StSuccess "✨ No missing values found!" ∧ isnull_total df = 0%nat) ∨
  (exists counts,
      w = StDataframe (MissingCounts counts) ∧ 0 < isnull_total df ∧
      forall name n,
        counts !! name = Some n <->
        0 < n ∧ exists c, c ∈ df_cols df ∧ col_name c = name ∧ count_null c = n).
Proof.
  intros Hread Hnd Hw Hm.
  apply handler_missing_report in Hw as (df' & a & Hread' & Ha & Hw); [|done].
  assert (df' = df) as -> by congruence.
  apply analyze_data_fields in Ha as (_ & _ & _ & _ & Hmv).
  assert (Hlook : forall name n,
    missing_values a !! name = Some n <->
    exists c, c ∈ df_cols df ∧ col_name c = name ∧ count_null c = n).
  { intros name n. rewrite Hmv, to_dict_lookup_iff by by rewrite isnull_sum_keys.
    unfold isnull_sum. rewrite list_elem_of_fmap. split.
    - intros (c & [= -> ->] & Hc). by exists c.
    - intros (c & Hc & <- & <-). by exists c. }
  unfold missing_tab in Hw.
  destruct (0 <? size _)%nat eqn:Hsize; simpl in Hw;
    apply list_elem_of_singleton in Hw as ->.
  - right. eexists. split; [done|]. apply Nat.ltb_lt in Hsize.
    assert (Hfilter : forall name n,
      filter (fun kv : string * nat => 0 < kv.2) (missing_values a) !! name = Some n
      <-> 0 < n ∧ exists c, c ∈ df_cols df ∧ col_name c = name ∧ count_null c = n).
    { intros name n. rewrite map_lookup_filter_Some, Hlook. simpl. tauto. }
    split; [|exact Hfilter].
    destruct (decide (isnull_total df = 0%nat)) as [Hzero|]; [exfalso|lia].
    apply isnull_total_zero in Hzero. rewrite Forall_forall in Hzero.
    assert (Hne : size (filter (fun kv : string * nat => 0 < kv.2)
                          (missing_values a)) ≠ 0%nat) by lia.
    apply map_size_ne_0_lookup in Hne as (name & n & Hn).
    apply Hfilter in Hn as (Hpos & c & Hc & _ & Hcount).
    specialize (Hzero c Hc). lia.
  - left. split; [done|]. apply Nat.ltb_ge in Hsize.
    assert (Hempty : filter (fun kv : string * nat => 0 < kv.2) (missing_values a) = ∅).
    { apply map_size_empty_iff. lia. }
    apply isnull_total_zero, Forall_forall. intros c Hc.
    destruct (count_null c) as [|n] eqn:Hcount; [done|exfalso].
    assert (Hin : filter (fun kv : string * nat => 0 < kv.2) (missing_values a)
                    !! col_name c = Some (S n)).
    { apply map_lookup_filter_Some. split; [|simpl; lia]. apply Hlook. by exists c. }
    rewrite Hempty, lookup_empty in Hin. done.
Qed.

End HandlerTabs.

Lemma long_table_never_downloads_witness :
  Forall (fun w => is_download w = false)
    (handler (H0 := sample_page_libs) (Some excel_upload) true) ∧
  (true = true ->
   Exists (fun w => is_error w = true)
     (handler (H0 := sample_page_libs) (Some excel_upload) true)).
Proof.
  apply (long_table_never_downloads (H0 := sample_page_libs) excel_upload
           eleven_rows_table true).
  - reflexivity.
  - simpl. lia.
  - discriminate.
Defined.

Lemma missing_tab_matches_table_witness :
  (StDataframe (F := @Figure sample_libs)
     (MissingCounts (filter (fun kv : string * nat => 0 < kv.2)
                       (to_dict (isnull_sum text_table))))
   = StSuccess "✨ No missing values found!" ∧ isnull_total text_table = 0%nat) ∨
  (exists counts,
      StDataframe (F := @Figure sample_libs)
        (MissingCounts (filter (fun kv : string * nat => 0 < kv.2)
                          (to_dict (isnull_sum text_table))))
      = StDataframe (MissingCounts counts) ∧ 0 < isnull_total text_table ∧
      forall name n,
        counts !! name = Some n <->
        0 < n ∧ exists c, c ∈ df_cols text_table ∧ col_name c = name
                          ∧ count_null c = n).
Proof.
  apply (missing_tab_matches_table (H0 := sample_page_libs) csv_upload
           text_table true).
  - reflexivity.
  - by_decide.
  - vm_compute.
    repeat first [apply list_elem_of_here | apply list_elem_of_further].
  - reflexivity.
Defined.

Section HandlerCharts.
Context `{PageLibs}.

Lemma charts_bind {A B} (m : Ui Figure A) (f : A -> Ui Figure B) n k :
  length (filter (fun w => is_chart w = true) (shown m)) <= n ->
  (forall a, length (filter (fun w => is_chart w = true) (shown (f a))) <= k) ->
  length (filter (fun w => is_chart w = true) (shown (m ≫= f))) <= n + k.
Proof.
  intros Hm Hf. rewrite shown_bind, filter_app, length_app.
  destruct (outcome m) as [a|]; [specialize (Hf a)|simpl]; lia.
Qed.

Lemma histograms_count df cols :
  length (filter (fun w => is_chart w = true)
            (shown (for_each (histogram df) cols))) <= length cols.
Proof.
  induction cols as [|col cols IH]; [done|].
  cbn [for_each]. change (length (col :: cols)) with (1 + length cols)%nat.
  apply charts_bind; [|by intros _].
  unfold histogram. rewrite shown_bind. simpl.
  destruct (px_histogram _ _ _ _); simpl; lia.
Qed.

Lemma no_charts (ws : list (widget Figure)) :
  Forall (fun w => is_chart w = false) ws ->
  length (filter (fun w => is_chart w = true) ws) <= 0.
Proof.
  induction 1 as [|w ws Hw _ IH]; [done|].
  rewrite filter_cons_False; [done|]. by rewrite Hw.
Qed.

(** X15.  Whatever the number of numeric columns, a page holds at most two
    charts: the histograms of the visualizations tab. *)
Theorem at_most_two_histograms uploaded_file clicked :
  length (filter (fun w => is_chart w = true) (handler uploaded_file clicked)) <= 2.
Proof.
  destruct uploaded_file as [f|]; [|vm_compute; lia].
  assert (Htry : length (filter (fun w => is_chart w = true)
                           (shown (try_block f clicked))) <= 2).
  { unfold try_block.
    apply (charts_bind _ _ 0 2); [done|]. intros df.
    apply (charts_bind _ _ 0 2).
    { apply no_charts. unfold overview. repeat (rewrite shown_bind; simpl).
      by repeat constructor. }
    intros _. apply (charts_bind _ _ 0 2); [done|]. intros _.
    apply (charts_bind _ _ 0 2); [done|]. intros a.
    apply (charts_bind _ _ 0 2); [done|]. intros _.
    apply (charts_bind _ _ 0 2); [done|]. intros _.
    apply (charts_bind _ _ 0 2).
    { apply no_charts. unfold statistics_tab.
      destruct (truthy _); [|by repeat constructor].
      rewrite !shown_bind. simpl.
      destruct (getitem_columns _ _) as [numeric|]; simpl; [|by repeat constructor].
      destruct (describe numeric); simpl; by repeat constructor. }
    intros _. apply (charts_bind _ _ 2 0).
    { unfold visualizations_tab. destruct (truthy _); [|simpl; lia].
      etrans; [apply histograms_count|]. rewrite length_take. lia. }
    intros _. apply (charts_bind _ _ 0 0).
    { apply no_charts. unfold missing_tab. destruct (0 <? _)%nat; by repeat constructor. }
    intros _. apply no_charts. destruct clicked.
    - rewrite report_section_clicked. destruct (_ ≫= _); simpl; by repeat constructor.
    - rewrite report_section_not_clicked. by repeat constructor. }
  unfold handler. destruct (outcome (try_block f clicked)); [done|].
  rewrite filter_app, length_app. unfold except_block.
  rewrite filter_cons_False by done. rewrite filter_cons_False by done.
  simpl. lia.
Qed.

End HandlerCharts.

(** * The sample-data script *)

(** X16.  Whatever values are drawn, the sample frame has 100 rows in six
    columns of 100 cells, and exactly six null cells: the Customer_Rating
    of rows 5, 6 and 7 and the Revenue of rows 15, 16 and 17 (three each, the
    label slices 5:7 and 15:17 taking both ends in). *)
Theorem sample_data_missing_cells product region sales revenue customer_rating :
  let df := sample_data product region sales revenue customer_rating in
  df_len df = 100%nat ∧
  columns df
  = ["Date"; "Product"; "Sales"; "Revenue"; "Region"; "Customer_Rating"] ∧
  Forall (fun c => length (col_cells c) = 100%nat) (df_cols df) ∧
  (fun c => (col_name c, null_rows c)) <$> df_cols df
  = [ ("Date", []); ("Product", []); ("Sales", []); ("Revenue", [15; 16; 17]%nat);
      ("Region", []); ("Customer_Rating", [5; 6; 7]%nat) ] ∧
  isnull_sum df
  = [ ("Date", 0); ("Product", 0); ("Sales", 0); ("Revenue", 3); ("Region", 0);
      ("Customer_Rating", 3) ]%nat ∧
  isnull_total df = 6%nat.
Proof.
  intros df. subst df. split; [reflexivity|]. split; [reflexivity|].
  split; [by repeat constructor|]. split; [reflexivity|].
  split; reflexivity.
Qed.

(** * The statistics tab *)

Lemma filter_by_name cols c :
  NoDup (col_name <$> cols) -> c ∈ cols ->
  filter (fun c' => col_name c' = col_name c) cols = [c].
Proof.
  induction cols as [|c0 cols IH]; intros Hnd Hin; [by apply elem_of_nil in Hin|].
  rewrite fmap_cons in Hnd. apply NoDup_cons in Hnd as [Hfresh Hnd].
  assert (Hnone : forall c', col_name c' ∉ col_name <$> cols ->
            filter (fun c'' => col_name c'' = col_name c') cols = []).
  { intros c' Hc'. clear -Hc'. induction cols as [|c'' cols IH']; [done|].
    rewrite fmap_cons in Hc'. apply not_elem_of_cons in Hc' as [Hne Hc'].
    rewrite filter_cons_False by done. by apply IH'. }
  apply elem_of_cons in Hin as [->|Hin].
  - rewrite filter_cons_True by done. by rewrite Hnone.
  - rewrite filter_cons_False; [by apply IH|].
    intros Heq. apply Hfresh. rewrite Heq. by apply list_elem_of_fmap_2.
Qed.

Lemma getitem_sublist cols sub (n : nat) :
  NoDup (col_name <$> cols) -> sub ⊆ cols ->
  getitem_columns (col_name <$> sub) {| df_len := n; df_cols := cols |}
  = Ok {| df_len := n; df_cols := sub |}.
Proof.
  intros Hnd Hsub. unfold getitem_columns. simpl.
  rewrite (comprehension_ok _ (fun name => filter (fun c => col_name c = name) cols)).
  - simpl. do 2 f_equal. rewrite <- list_fmap_compose.
    induction sub as [|c sub IH]; [done|]. rewrite fmap_cons. simpl.
    rewrite filter_by_name; [|done|apply Hsub; apply list_elem_of_here].
    simpl. f_equal. apply IH. intros c' Hc'. apply Hsub.
    by apply list_elem_of_further.
  - apply Forall_fmap, Forall_forall. intros c Hc. simpl.
    rewrite filter_by_name; [done|done|by apply Hsub].
Qed.

Section StatisticsTab.
Context `{Libs}.

(** X17.  For a table with unique column names, selecting the profile's
    numeric columns from the table by name, as the statistics tab does,
    raises no KeyError and gives the numeric columns of the table. *)
Theorem numeric_columns_by_name df a :
  NoDup (columns df) ->
  analyze_data df = Ok a ->
  getitem_columns (numeric_columns a) df = Ok (select_dtypes is_number df).
Proof.
  intros Hnd Ha. apply analyze_data_fields in Ha as (_ & _ & -> & _).
  destruct df as [n cols]. unfold columns at 1, select_dtypes. simpl.
  apply getitem_sublist; [done|].
  intros c Hc. by apply list_elem_of_filter in Hc as [_ ?].
Qed.

End StatisticsTab.

Lemma numeric_columns_by_name_witness :
  exists a, analyze_data (H := sample_libs) sales_table = Ok a ∧
    getitem_columns (numeric_columns a) sales_table
    = Ok (select_dtypes is_number sales_table).
Proof.
  eexists. split; [reflexivity|].
  apply (numeric_columns_by_name (H := sample_libs) sales_table).
  - by_decide.
  - reflexivity.
Defined.

